(** * Verification of the ETL pipeline of [main.py]

    A shallow embedding of [main.py]: the two preparers ([prep_cols],
    [prep_data]), the sorting helper [sort_by], the composer
    [compose_csv_data], the decorated reader [read_file] and the entry point
    ([__main__]), followed by the properties of the design document that can
    be stated over them.

    Conventions of the embedding.
    - A Python [str] is a [string]; each [ascii] stands for one code point
      below 256.
    - A Python [int] is a [Z]; a Python [list] of [str] is a [list string].
    - A Python value that may be [None] is an [option].
    - A function that may raise returns a [result]; code that logs, reads or
      writes files, calls the storage library or exits runs in the monad [M],
      which records the observable events of a run in order. *)

From Stdlib Require Import List String Ascii ZArith Bool Arith Lia.
From Stdlib Require Import Permutation Sorted.
Import ListNotations.

Local Open Scope string_scope.
Local Open Scope list_scope.
Local Open Scope nat_scope.

(** ** Exceptions *)

(** The exception classes the modelled code can raise. *)
Inductive exn : Type :=
| ValueError          (* int() on a string that is no integer literal *)
| IndexError          (* list index out of range *)
| TypeError           (* a list indexed by None *)
| AttributeError      (* .values() on None *)
| FileNotFoundError   (* open() of a file that does not exist *)
| KeyError.           (* kwargs[...] for a keyword that was not given *)

Inductive result (A : Type) : Type :=
| Ok (a : A)
| Raise (e : exn).
Arguments Ok {A} a.
Arguments Raise {A} e.

Definition rbind {A B : Type} (r : result A) (k : A -> result B) : result B :=
  match r with
  | Ok a => k a
  | Raise e => Raise e
  end.

(** A list comprehension [[f x for x in l]] whose body may raise: the
    elements are visited left to right and the first exception ends it. *)
Fixpoint rmap {A B : Type} (f : A -> result B) (l : list A) : result (list B) :=
  match l with
  | [] => Ok []
  | x :: t =>
      rbind (f x) (fun y => rbind (rmap f t) (fun ys => Ok (y :: ys)))
  end.

(** ** Built-in string operations *)

Definition pipe : ascii := "|"%char.
Definition comma : ascii := ","%char.

(** [s.split(sep)] for a separator of one character, as the code calls it
    ([split('|')]): the maximal pieces between the separators; never empty. *)
Fixpoint split (sep : ascii) (s : string) : list string :=
  match s with
  | EmptyString => [EmptyString]
  | String c s' =>
      if Ascii.eqb c sep then EmptyString :: split sep s'
      else
        match split sep s' with
        | [] => [String c EmptyString]
        | f :: fs => String c f :: fs
        end
  end.

(** [sep.join(l)]. *)
Fixpoint join (sep : string) (l : list string) : string :=
  match l with
  | [] => EmptyString
  | [x] => x
  | x :: t => (x ++ sep ++ join sep t)%string
  end.

(** [l[i]] on a list: negative indices count from the end, anything out of
    range raises [IndexError]. *)
Definition py_index {A : Type} (l : list A) (i : Z) : result A :=
  let n := Z.of_nat (List.length l) in
  let j := if (i <? 0)%Z then (i + n)%Z else i in
  if ((j <? 0) || (n <=? j))%Z then Raise IndexError
  else
    match nth_error l (Z.to_nat j) with
    | Some x => Ok x
    | None => Raise IndexError
    end.

(** Characters [str.strip()] removes: Unicode white space below 256. *)
Definition is_unicode_space (c : ascii) : bool :=
  let n := nat_of_ascii c in
  ((9 <=? n) && (n <=? 13)) || ((28 <=? n) && (n <=? 32))
  || (n =? 133) || (n =? 160).

(** Characters [int()] skips around the literal: the ASCII white space of C,
    and the non-ASCII white space, which it first turns into blanks. *)
Definition is_int_space (c : ascii) : bool :=
  let n := nat_of_ascii c in
  ((9 <=? n) && (n <=? 13)) || (n =? 32) || (n =? 133) || (n =? 160).

Fixpoint drop_while (p : ascii -> bool) (l : list ascii) : list ascii :=
  match l with
  | [] => []
  | c :: t => if p c then drop_while p t else l
  end.

(** [s.strip()]. *)
Definition strip (s : string) : string :=
  let front := drop_while is_unicode_space (list_ascii_of_string s) in
  string_of_list_ascii
    (rev (drop_while is_unicode_space (rev front))).

Definition is_digit (c : ascii) : bool :=
  let n := nat_of_ascii c in (48 <=? n) && (n <=? 57).

Definition digit_value (c : ascii) : Z := Z.of_nat (nat_of_ascii c - 48).

(** The digit loop of [int()]: digits with single underscores between them.
    [prev_us] tells that the previous character was an underscore; the
    result is the value read, the number of digits and the unread rest. *)
Fixpoint scan_digits (prev_us : bool) (acc : Z) (digits : nat)
    (cs : list ascii) : option (Z * nat * list ascii) :=
  match cs with
  | [] => if prev_us then None else Some (acc, digits, [])
  | c :: t =>
      if is_digit c then
        scan_digits false (10 * acc + digit_value c)%Z (S digits) t
      else if Ascii.eqb c "_" then
        if prev_us then None else scan_digits true acc digits t
      else if prev_us then None
      else Some (acc, digits, cs)
  end.

(** The default limit of the interpreter on the digits of a literal that
    [int()] converts. *)
Definition int_max_str_digits : nat := 4300.

(** [int(s)] in base 10: optional white space, an optional sign, digits with
    single underscores between them, optional white space, and nothing else.
    [None] stands for the [ValueError] it raises otherwise. *)
Definition py_int (s : string) : option Z :=
  let cs := drop_while is_int_space (list_ascii_of_string s) in
  let '(negative, cs) :=
    match cs with
    | c :: t =>
        if Ascii.eqb c "+" then (false, t)
        else if Ascii.eqb c "-" then (true, t)
        else (false, cs)
    | [] => (false, cs)
    end in
  match cs with
  | [] => None
  | c :: _ =>
      if Ascii.eqb c "_" then None
      else
        match scan_digits false 0%Z 0%nat cs with
        | None => None
        | Some (v, digits, rest) =>
            if (digits =? 0)%nat then None
            else if (int_max_str_digits <? digits)%nat then None
            else
              match drop_while is_int_space rest with
              | [] => Some (if negative then (- v)%Z else v)
              | _ :: _ => None
              end
        end
  end.

Definition int (s : string) : result Z :=
  match py_int s with
  | Some z => Ok z
  | None => Raise ValueError
  end.

(** ** [sorted] with an integer key *)

(** Insertion of [x] in a list sorted by key: before the first element whose
    key is not smaller, so that [x] stays in front of the elements of equal
    key, which stood behind it. *)
Fixpoint insert_by_key {A : Type} (x : Z * A) (l : list (Z * A))
    : list (Z * A) :=
  match l with
  | [] => [x]
  | y :: t =>
      if (fst x <=? fst y)%Z then x :: l else y :: insert_by_key x t
  end.

(** A stable sort on the keys. The sort of the interpreter is stable; a
    stable sort has one possible result ([stable_sort_unique] below), so
    this one stands for it. *)
Definition stable_sort {A : Type} (l : list (Z * A)) : list (Z * A) :=
  fold_right insert_by_key [] l.

(** [sorted(data, key=key)]: the key of every element is computed first, in
    order, and an exception of the key function ends the call; then the
    elements are sorted on their keys. *)
Definition sorted {A : Type} (key : A -> result Z) (data : list A)
    : result (list A) :=
  rbind (rmap (fun x => rbind (key x) (fun k => Ok (k, x))) data)
        (fun keyed => Ok (map snd (stable_sort keyed))).

(** ** The preparers *)

(** [sort_by(data, key_index)]: [key_index] defaults to [None], and indexing
    with [None] raises [TypeError]. *)
Definition sort_key (key_index : option Z) (item : string) : result Z :=
  match key_index with
  | None => Raise TypeError
  | Some i => rbind (py_index (split pipe item) i) int
  end.

Definition sort_by (data : list string) (key_index : option Z)
    : result (list string) :=
  sorted (sort_key key_index) data.

Definition prep_cols (cols : list string) : result (list string) :=
  rbind (sort_by cols (Some 0%Z)) (fun cols_sorted =>
  rmap (fun col => py_index (split pipe col) 1%Z) cols_sorted).

Definition prep_data (data : list string) : list string :=
  map (fun row => join "," (split pipe row)) data.

(** ** Effects: logging, files, the storage library, exit *)

Inductive level : Type := INFO | WARNING | ERROR | CRITICAL.

(** A [pathlib.Path]. *)
Record Path : Type := { path_name : string }.

(** What a run does that can be observed from outside, in order. *)
Inductive event : Type :=
| Log (lvl : level) (msg : string)            (* logging.<lvl>(msg) *)
| ReadFile (path : Path)                      (* open(path, 'r'), readlines *)
| WriteFile (name : string) (content : string) (* open(name, 'w'), write *)
| LoadCsv (name : string).                    (* storage_lib.load_csv(name) *)

(** How a computation ends: with a value, by [sys.exit()], or with an
    exception nobody catches. *)
Inductive outcome (A : Type) : Type :=
| Return (a : A)
| SysExit
| Uncaught (e : exn).
Arguments Return {A} a.
Arguments SysExit {A}.
Arguments Uncaught {A} e.

(** The files on disk: for a path, the lines that [open] and [readlines()]
    give, or [None] when there is no such file. A file that exists but
    cannot be read (no permission, bytes that do not decode) is not
    modelled: [Some lines] says that reading succeeds with these lines. *)
Definition files : Type := Path -> option (list string).

Definition M (A : Type) : Type := files -> list event * outcome A.

Definition ret {A : Type} (a : A) : M A := fun _ => ([], Return a).

Definition bind {A B : Type} (m : M A) (k : A -> M B) : M B :=
  fun fs =>
    match m fs with
    | (t, Return a) => let (t', o) := k a fs in (t ++ t', o)
    | (t, SysExit) => (t, SysExit)
    | (t, Uncaught e) => (t, Uncaught e)
    end.

Notation "x <- m ;; k" := (bind m (fun x => k))
  (at level 61, m at next level, right associativity).
Notation "m ;; k" := (bind m (fun _ => k))
  (at level 61, right associativity).

Definition emit (e : event) : M unit := fun _ => ([e], Return tt).
Definition log (lvl : level) (msg : string) : M unit := emit (Log lvl msg).
Definition sys_exit {A : Type} : M A := fun _ => ([], SysExit).
Definition raise {A : Type} (e : exn) : M A := fun _ => ([], Uncaught e).

Definition lift {A : Type} (r : result A) : M A :=
  match r with
  | Ok a => ret a
  | Raise e => raise e
  end.

(** [open(path, 'r')] followed by [readlines()]. *)
Definition readlines (path : Path) : M (list string) :=
  fun fs =>
    match fs path with
    | Some lines => ([ReadFile path], Return lines)
    | None => ([], Uncaught FileNotFoundError)
    end.

(** Truth value of a list or [None], as [not x] tests it. *)
Definition falsy {A : Type} (v : option (list A)) : bool :=
  match v with
  | None => true
  | Some [] => true
  | Some (_ :: _) => false
  end.

Definition list_of {A : Type} (v : option (list A)) : list A :=
  match v with
  | Some l => l
  | None => []
  end.

Definition newline : string := String (ascii_of_nat 10) EmptyString.

(** ** Reading files *)

(** The path in an f-string, for a [Path] and for Python's [None]; these
    are the two arguments this model of the decorated function covers
    ([wrapper] below covers every call). *)
Definition show_path (path : option Path) : string :=
  match path with
  | Some p => path_name p
  | None => "None"
  end.

(** The decorator [log_read_file]: [wrapper] around [read_file_func], for
    calls that give both keywords and a [Path] or [None] as path. *)
Definition log_read_file (read_file_func : Path -> bool -> M (list string))
    (path : option Path) (strip_whitespace : bool)
    : M (option (list string)) :=
  log INFO ("Attempting to read file " ++ show_path path) ;;
  match path with
  | None =>
      log ERROR "Invalid path. Provide a valid Path object." ;;
      ret None
  | Some p =>
      lines <- read_file_func p strip_whitespace ;;
      if falsy (Some lines) then
        log WARNING ("File, " ++ show_path path ++ " is empty.") ;;
        ret None
      else
        log INFO ("Successfully read file " ++ show_path path) ;;
        ret (Some lines)
  end.

(** The body of [read_file], before decoration. *)
Definition read_file_body (path : Path) (strip_whitespace : bool)
    : M (list string) :=
  data <- readlines path ;;
  ret (if strip_whitespace then map strip data else data).

Definition read_file : option Path -> bool -> M (option (list string)) :=
  log_read_file read_file_body.

(** ** The composer *)

(** The dictionary [compose_csv_data] returns. *)
Record csv : Type := { data : list string; row_count : Z }.

Definition compose_csv_data (data cols : option (list string))
    : M (option csv) :=
  if falsy data || falsy cols then
    log ERROR "Provide valid data and columns." ;;
    ret None
  else
    let result := list_of cols ++ list_of data in
    ret (Some {| data := result; row_count := Z.of_nat (List.length result) |}).

(** ** The entry point *)

(** The module-level constants a run depends on. The locations and the name
    of the destination file (which contains a fresh UUID) come from the
    environment of the run. *)
Record config : Type := {
  SOURCE_COLUMNS : Path;
  SOURCE_DATA : Path;
  DEST_DATA_FILENAME : string;
  EXPECTED_ROW_COUNT : Z
}.

(** Row count verification and hand-over to the storage library: the end of
    the entry point. The storage library is not part of the source: its
    call is recorded as an event and taken to return, as is the write of
    the output file in [main]. *)
Definition verify_and_load (cfg : config) (row_count : Z) : M unit :=
  log INFO "Running row count verification..." ;;
  if negb (row_count - 1 =? EXPECTED_ROW_COUNT cfg)%Z then
    log CRITICAL "Row counts between source data and CSV file not matching!" ;;
    sys_exit
  else
    log INFO "Row count verification succeeeded..." ;;
    log INFO "Attempting to move CSV file to destination..." ;;
    emit (LoadCsv (DEST_DATA_FILENAME cfg)) ;;
    log INFO ("Successfully moved file " ++ DEST_DATA_FILENAME cfg ++ "...") ;;
    log INFO "ETL process complete...".

Definition main (cfg : config) : M unit :=
  log INFO "Beginning the ETL process..." ;;
  cols <- read_file (Some (SOURCE_COLUMNS cfg)) true ;;
  if falsy cols then sys_exit
  else
    names <- lift (prep_cols (list_of cols)) ;;
    let prepped_cols_names := [join "," names] in
    source_data <- read_file (Some (SOURCE_DATA cfg)) true ;;
    if falsy source_data then sys_exit
    else
      log INFO "Prepping source data..." ;;
      let prepped_source_data := prep_data (list_of source_data) in
      log INFO "Composing CSV file..." ;;
      composed <- compose_csv_data (Some prepped_source_data)
                                   (Some prepped_cols_names) ;;
      match composed with
      | None => raise AttributeError
      | Some c =>
          log INFO "Writing CSV data to file..." ;;
          emit (WriteFile (DEST_DATA_FILENAME cfg) (join newline (data c))) ;;
          verify_and_load cfg (row_count c)
      end.

(** The constants as the module sets them: the locations below the
    directory [root] of the program, the destination name from the stem of
    the data file and a UUID, and an expected count of 1000 data rows. *)
Definition source_config (root uuid : string) : config :=
  let SOURCE_DATA_DIR := (root ++ "/data/source")%string in
  {| SOURCE_COLUMNS := {| path_name := SOURCE_DATA_DIR ++ "/SOURCECOLUMNS.txt" |};
     SOURCE_DATA := {| path_name := SOURCE_DATA_DIR ++ "/SOURCEDATA.txt" |};
     DEST_DATA_FILENAME := "SOURCEDATA_" ++ uuid ++ ".csv";
     EXPECTED_ROW_COUNT := 1000 |}.

(** ** Notions used to state the properties *)

(** Number of occurrences of a character in a string. *)
Fixpoint count_char (c : ascii) (s : string) : nat :=
  match s with
  | EmptyString => 0
  | String a s' => (if Ascii.eqb a c then 1 else 0) + count_char c s'
  end.

(** Replacement of every [c] by [d]. *)
Fixpoint replace_char (c d : ascii) (s : string) : string :=
  match s with
  | EmptyString => EmptyString
  | String a s' => String (if Ascii.eqb a c then d else a) (replace_char c d s')
  end.

(** The first segment of a line. *)
Definition first_segment (line : string) : string :=
  hd EmptyString (split pipe line).

(** The ordinal of a column line: the key [sort_by] sorts it on ([0] where
    the key function raises). *)
Definition ordinal (line : string) : Z :=
  match sort_key (Some 0%Z) line with
  | Ok z => z
  | Raise _ => 0%Z
  end.

(** The name of a column line: what [prep_cols] projects it to (empty where
    the projection raises). *)
Definition column_name (line : string) : string :=
  match py_index (split pipe line) 1%Z with
  | Ok n => n
  | Raise _ => EmptyString
  end.

(** A column line of the form [<ordinal>|<name>]: one delimiter, and an
    ordinal that [int()] accepts. *)
Definition well_formed_column (line : string) : bool :=
  match split pipe line with
  | [o; _] => match py_int o with Some _ => true | None => false end
  | _ => false
  end.

(** A column line [prep_cols] accepts: at least one delimiter, and a first
    segment that [int()] accepts. *)
Definition accepted_column (line : string) : bool :=
  match split pipe line with
  | o :: _ :: _ => match py_int o with Some _ => true | None => false end
  | _ => false
  end.

(** Insertion sort on the elements themselves, for a total key [k]; the
    sort of [sorted] on the keyed list is this one ([stable_sort_keyed]). *)
Fixpoint insert_on {A : Type} (k : A -> Z) (x : A) (l : list A) : list A :=
  match l with
  | [] => [x]
  | y :: t => if (k x <=? k y)%Z then x :: l else y :: insert_on k x t
  end.

Definition isort {A : Type} (k : A -> Z) (l : list A) : list A :=
  fold_right (insert_on k) [] l.

Definition keyed_by {A : Type} (k : A -> Z) (l : list A) : list (Z * A) :=
  map (fun x => (k x, x)) l.

(** The elements of key [z], in order. *)
Definition with_key {A : Type} (k : A -> Z) (z : Z) (l : list A) : list A :=
  filter (fun x => (k x =? z)%Z) l.

(** Non-decreasing keys. *)
Definition key_sorted {A : Type} (k : A -> Z) (l : list A) : Prop :=
  StronglySorted (fun a b => (k a <= k b)%Z) l.

(** The events of a run up to the successful reading of the column file. *)
Definition columns_read (cfg : config) : list event :=
  [Log INFO "Beginning the ETL process...";
   Log INFO ("Attempting to read file " ++ path_name (SOURCE_COLUMNS cfg));
   ReadFile (SOURCE_COLUMNS cfg);
   Log INFO ("Successfully read file " ++ path_name (SOURCE_COLUMNS cfg))].

(** The contents written to output files during a run, in order. *)
Fixpoint written (t : list event) : list string :=
  match t with
  | [] => []
  | WriteFile _ content :: t' => content :: written t'
  | _ :: t' => written t'
  end.

(** The files handed to the storage library during a run, in order. *)
Fixpoint loaded (t : list event) : list string :=
  match t with
  | [] => []
  | LoadCsv name :: t' => name :: loaded t'
  | _ :: t' => loaded t'
  end.

(** The files read during a run, in order. *)
Fixpoint files_read (t : list event) : list Path :=
  match t with
  | [] => []
  | ReadFile p :: t' => p :: files_read t'
  | _ :: t' => files_read t'
  end.

(** The messages logged at a level during a run, in order. *)
Fixpoint logged (lvl : level) (t : list event) : list string :=
  match t with
  | [] => []
  | Log l msg :: t' =>
      match l, lvl with
      | INFO, INFO | WARNING, WARNING | ERROR, ERROR | CRITICAL, CRITICAL =>
          msg :: logged lvl t'
      | _, _ => logged lvl t'
      end
  | _ :: t' => logged lvl t'
  end.

(** ** Concrete runs *)

(** A configuration for the examples: fixed locations and destination
    name, and the expected number of data rows as given. *)
Definition example_config (expected : Z) : config :=
  {| SOURCE_COLUMNS := {| path_name := "SOURCECOLUMNS.txt" |};
     SOURCE_DATA := {| path_name := "SOURCEDATA.txt" |};
     DEST_DATA_FILENAME := "SOURCEDATA_1.csv";
     EXPECTED_ROW_COUNT := expected |}.

(** The disk holding a column file and a data file of the given lines, at
    the locations of [example_config], and nothing else. *)
Definition example_files (column_lines data_lines : list string) : files :=
  fun p =>
    if String.eqb (path_name p) "SOURCECOLUMNS.txt" then Some column_lines
    else if String.eqb (path_name p) "SOURCEDATA.txt" then Some data_lines
    else None.

(** A second environment: other locations, another destination name, the
    same expected count, and a disk with more files on it. *)
Definition other_config (expected : Z) : config :=
  {| SOURCE_COLUMNS := {| path_name := "in/columns" |};
     SOURCE_DATA := {| path_name := "in/rows" |};
     DEST_DATA_FILENAME := "rows_2.csv";
     EXPECTED_ROW_COUNT := expected |}.

Definition other_files (column_lines data_lines : list string) : files :=
  fun p =>
    if String.eqb (path_name p) "in/columns" then Some column_lines
    else if String.eqb (path_name p) "in/rows" then Some data_lines
    else Some ["unrelated"].

(** ** Further notions *)

(** The key [sort_by] sorts a line on for a given [key_index] ([0] where
    the key function raises); [ordinal] is the case of index 0. *)
Definition key_of (key_index : option Z) (line : string) : Z :=
  match sort_key key_index line with
  | Ok z => z
  | Raise _ => 0%Z
  end.

(** The value given for the keyword [path]: a [Path], or anything else, of
    which only the text matters that an f-string shows for it. *)
Inductive path_arg : Type :=
| IsPath (p : Path)
| NoPath (text : string).

Definition show_arg (a : path_arg) : string :=
  match a with
  | IsPath p => path_name p
  | NoPath text => text
  end.

(** The keyword arguments of a call as far as [wrapper] looks at them;
    [None] for a keyword the call does not give. Positional arguments are
    never looked at. *)
Record kwargs : Type := {
  kw_path : option path_arg;
  kw_strip_whitespace : option bool
}.

(** The function [log_read_file] returns, for every call: the two lookups
    in [kwargs] come first, a [Path] is always true, and anything that is
    no [Path] fails the test of the path whatever its truth value is. *)
Definition wrapper (read_file_func : Path -> bool -> M (list string))
    (kw : kwargs) : M (option (list string)) :=
  match kw_path kw with
  | None => raise KeyError
  | Some path =>
      match kw_strip_whitespace kw with
      | None => raise KeyError
      | Some strip_whitespace =>
          log INFO ("Attempting to read file " ++ show_arg path) ;;
          match path with
          | NoPath _ =>
              log ERROR "Invalid path. Provide a valid Path object." ;;
              ret None
          | IsPath p =>
              lines <- read_file_func p strip_whitespace ;;
              if falsy (Some lines) then
                log WARNING ("File, " ++ show_arg path ++ " is empty.") ;;
                ret None
              else
                log INFO ("Successfully read file " ++ show_arg path) ;;
                ret (Some lines)
          end
      end
  end.

(** The keyword arguments of a call with both keywords, the path a [Path]
    or [None]. *)
Definition keywords (path : option Path) (strip_whitespace : bool) : kwargs :=
  {| kw_path := Some match path with
                     | Some p => IsPath p
                     | None => NoPath "None"
                     end;
     kw_strip_whitespace := Some strip_whitespace |}.

(** The line feed, the one character of [newline]. *)
Definition newline_char : ascii := ascii_of_nat 10.

(** A list of characters that begins with white space. *)
Definition starts_with_space (cs : list ascii) : bool :=
  match cs with
  | [] => false
  | c :: _ => is_unicode_space c
  end.

(** A string with white space neither in front nor at the end. *)
Definition stripped (s : string) : bool :=
  negb (starts_with_space (list_ascii_of_string s))
  && negb (starts_with_space (rev (list_ascii_of_string s))).

(** The events of a run up to the writing of the artifact of the given
    lines. *)
Definition artifact_written (cfg : config) (lines : list string)
    : list event :=
  columns_read cfg ++
  [Log INFO ("Attempting to read file " ++ path_name (SOURCE_DATA cfg));
   ReadFile (SOURCE_DATA cfg);
   Log INFO ("Successfully read file " ++ path_name (SOURCE_DATA cfg));
   Log INFO "Prepping source data...";
   Log INFO "Composing CSV file...";
   Log INFO "Writing CSV data to file...";
   WriteFile (DEST_DATA_FILENAME cfg) (join newline lines)].

(** The runs of the entry point, by the place where they end: the events
    and the outcome of each, under the condition on the disk and on the
    configuration that leads there. *)
Inductive run_of (cfg : config) (fs : files)
    : list event * outcome unit -> Prop :=
| run_columns_missing :
    fs (SOURCE_COLUMNS cfg) = None ->
    run_of cfg fs
      ([Log INFO "Beginning the ETL process...";
        Log INFO ("Attempting to read file "
                  ++ path_name (SOURCE_COLUMNS cfg))],
       Uncaught FileNotFoundError)
| run_columns_empty :
    fs (SOURCE_COLUMNS cfg) = Some [] ->
    run_of cfg fs
      ([Log INFO "Beginning the ETL process...";
        Log INFO ("Attempting to read file "
                  ++ path_name (SOURCE_COLUMNS cfg));
        ReadFile (SOURCE_COLUMNS cfg);
        Log WARNING ("File, " ++ path_name (SOURCE_COLUMNS cfg)
                     ++ " is empty.")],
       SysExit)
| run_columns_raise (raw : list string) (e : exn) :
    fs (SOURCE_COLUMNS cfg) = Some raw -> raw <> [] ->
    prep_cols (map strip raw) = Raise e ->
    run_of cfg fs (columns_read cfg, Uncaught e)
| run_data_missing (raw names : list string) :
    fs (SOURCE_COLUMNS cfg) = Some raw -> raw <> [] ->
    prep_cols (map strip raw) = Ok names ->
    fs (SOURCE_DATA cfg) = None ->
    run_of cfg fs
      (columns_read cfg ++
       [Log INFO ("Attempting to read file "
                  ++ path_name (SOURCE_DATA cfg))],
       Uncaught FileNotFoundError)
| run_data_empty (raw names : list string) :
    fs (SOURCE_COLUMNS cfg) = Some raw -> raw <> [] ->
    prep_cols (map strip raw) = Ok names ->
    fs (SOURCE_DATA cfg) = Some [] ->
    run_of cfg fs
      (columns_read cfg ++
       [Log INFO ("Attempting to read file "
                  ++ path_name (SOURCE_DATA cfg));
        ReadFile (SOURCE_DATA cfg);
        Log WARNING ("File, " ++ path_name (SOURCE_DATA cfg)
                     ++ " is empty.")],
       SysExit)
| run_mismatch (raw names rows : list string) :
    fs (SOURCE_COLUMNS cfg) = Some raw -> raw <> [] ->
    prep_cols (map strip raw) = Ok names ->
    fs (SOURCE_DATA cfg) = Some rows -> rows <> [] ->
    Z.of_nat (List.length rows) <> EXPECTED_ROW_COUNT cfg ->
    run_of cfg fs
      (artifact_written cfg
         (join "," names :: prep_data (map strip rows)) ++
       [Log INFO "Running row count verification...";
        Log CRITICAL
          "Row counts between source data and CSV file not matching!"],
       SysExit)
| run_complete (raw names rows : list string) :
    fs (SOURCE_COLUMNS cfg) = Some raw -> raw <> [] ->
    prep_cols (map strip raw) = Ok names ->
    fs (SOURCE_DATA cfg) = Some rows -> rows <> [] ->
    Z.of_nat (List.length rows) = EXPECTED_ROW_COUNT cfg ->
    run_of cfg fs
      (artifact_written cfg
         (join "," names :: prep_data (map strip rows)) ++
       [Log INFO "Running row count verification...";
        Log INFO "Row count verification succeeeded...";
        Log INFO "Attempting to move CSV file to destination...";
        LoadCsv (DEST_DATA_FILENAME cfg);
        Log INFO ("Successfully moved file " ++ DEST_DATA_FILENAME cfg
                  ++ "...");
        Log INFO "ETL process complete..."],
       Return tt).

(** * Properties *)

(** ** Lists, exceptions and sorting *)

Section ResultFacts.
Context {A B : Type}.
Variable f : A -> result B.

Lemma rmap_ok (g : A -> B) (l : list A) :
  Forall (fun x => f x = Ok (g x)) l -> rmap f l = Ok (map g l).
Proof.
  induction 1 as [|x t Hx _ IH]; simpl.
  - reflexivity.
  - rewrite Hx; simpl. rewrite IH; reflexivity.
Qed.

(** When every element either succeeds or raises [e], and one raises,
    the comprehension raises [e]. *)
Lemma rmap_raise (e : exn) (l : list A) :
  Forall (fun x => (exists y, f x = Ok y) \/ f x = Raise e) l ->
  Exists (fun x => f x = Raise e) l ->
  rmap f l = Raise e.
Proof.
  induction 1 as [|x t Hx Ht IH]; intros Hex.
  - inversion Hex.
  - simpl. destruct Hx as [[y Hy]|Hx].
    + rewrite Hy; simpl.
      inversion Hex as [? ? Hbad|? ? Hbad]; subst.
      * congruence.
      * rewrite (IH Hbad); reflexivity.
    + rewrite Hx; reflexivity.
Qed.
End ResultFacts.

Section SortFacts.
Context {A : Type}.
Variable k : A -> Z.

Lemma insert_keyed (x : A) (l : list A) :
  insert_by_key (k x, x) (keyed_by k l) = keyed_by k (insert_on k x l).
Proof.
  induction l as [|y t IH].
  - reflexivity.
  - change (keyed_by k (y :: t)) with ((k y, y) :: keyed_by k t).
    cbn [insert_by_key insert_on fst].
    destruct (k x <=? k y)%Z.
    + reflexivity.
    + rewrite IH. reflexivity.
Qed.

Lemma stable_sort_keyed (l : list A) :
  stable_sort (keyed_by k l) = keyed_by k (isort k l).
Proof.
  induction l as [|x t IH].
  - reflexivity.
  - change (stable_sort (keyed_by k (x :: t)))
      with (insert_by_key (k x, x) (stable_sort (keyed_by k t))).
    rewrite IH. apply insert_keyed.
Qed.

Lemma map_snd_keyed (l : list A) : map snd (keyed_by k l) = l.
Proof.
  unfold keyed_by. rewrite map_map. simpl. apply map_id.
Qed.

Lemma insert_on_perm (x : A) (l : list A) :
  Permutation (insert_on k x l) (x :: l).
Proof.
  induction l as [|y t IH]; simpl.
  - apply Permutation_refl.
  - destruct (k x <=? k y)%Z.
    + apply Permutation_refl.
    + eapply perm_trans; [apply perm_skip, IH | apply perm_swap].
Qed.

Lemma isort_perm (l : list A) : Permutation (isort k l) l.
Proof.
  induction l as [|x t IH]; simpl.
  - constructor.
  - eapply perm_trans; [apply insert_on_perm | apply perm_skip, IH].
Qed.

Lemma insert_on_sorted (x : A) (l : list A) :
  key_sorted k l -> key_sorted k (insert_on k x l).
Proof.
  unfold key_sorted.
  induction 1 as [|y t Ht IH Hy]; simpl.
  - constructor; constructor.
  - destruct (k x <=? k y)%Z eqn:E.
    + apply Z.leb_le in E.
      constructor.
      * constructor; assumption.
      * constructor; [exact E|].
        rewrite Forall_forall in Hy |- *.
        intros z Hz. specialize (Hy z Hz). lia.
    + apply Z.leb_gt in E.
      constructor; [exact IH|].
      apply (Permutation_Forall (Permutation_sym (insert_on_perm x t))).
      constructor; [lia | exact Hy].
Qed.

Lemma isort_sorted (l : list A) : key_sorted k (isort k l).
Proof.
  induction l as [|x t IH]; simpl.
  - constructor.
  - apply insert_on_sorted, IH.
Qed.

(** Insertion moves [x] only past elements of smaller key, so the
    elements of any one key keep their order. *)
Lemma insert_on_with_key (z : Z) (x : A) (l : list A) :
  with_key k z (insert_on k x l) = with_key k z (x :: l).
Proof.
  unfold with_key.
  induction l as [|y t IH]; simpl.
  - reflexivity.
  - destruct (k x <=? k y)%Z eqn:E; simpl.
    + reflexivity.
    + apply Z.leb_gt in E. rewrite IH. simpl.
      destruct (k x =? z)%Z eqn:Ex, (k y =? z)%Z eqn:Ey; try reflexivity.
      apply Z.eqb_eq in Ex, Ey. lia.
Qed.

Lemma isort_with_key (z : Z) (l : list A) :
  with_key k z (isort k l) = with_key k z l.
Proof.
  induction l as [|x t IH]; simpl.
  - reflexivity.
  - rewrite insert_on_with_key. unfold with_key in *. simpl.
    rewrite IH. reflexivity.
Qed.

(** Sorted on the keys and stable: at most one list is both. *)
Lemma stable_sort_unique (l1 l2 : list A) :
  key_sorted k l1 -> key_sorted k l2 ->
  (forall z, with_key k z l1 = with_key k z l2) ->
  l1 = l2.
Proof.
  unfold key_sorted, with_key.
  intros H1; revert l2.
  induction H1 as [|x t1 Ht1 IH Hx]; intros l2 H2 Hf.
  - destruct l2 as [|y t2]; [reflexivity|].
    specialize (Hf (k y)). simpl in Hf.
    rewrite Z.eqb_refl in Hf. discriminate.
  - destruct H2 as [|y t2 Ht2 Hy].
    + specialize (Hf (k x)). simpl in Hf.
      rewrite Z.eqb_refl in Hf. discriminate.
    + assert (Hk : k x = k y).
      { destruct (Z.lt_total (k x) (k y)) as [Hlt|[Heq|Hgt]]; [|exact Heq|].
        - pose proof (Hf (k x)) as Hfx. simpl in Hfx.
          rewrite Z.eqb_refl in Hfx.
          assert (Hin : In x (filter (fun a => (k a =? k x)%Z) (y :: t2))).
          { simpl. rewrite <- Hfx. left; reflexivity. }
          apply filter_In in Hin. destruct Hin as [[->|Hin] _]; [lia|].
          rewrite Forall_forall in Hy. specialize (Hy x Hin). lia.
        - pose proof (Hf (k y)) as Hfy. simpl in Hfy.
          rewrite Z.eqb_refl in Hfy.
          assert (Hin : In y (filter (fun a => (k a =? k y)%Z) (x :: t1))).
          { simpl. rewrite Hfy. left; reflexivity. }
          apply filter_In in Hin. destruct Hin as [[->|Hin] _]; [lia|].
          rewrite Forall_forall in Hx. specialize (Hx y Hin). lia. }
      pose proof (Hf (k x)) as Hfx. simpl in Hfx.
      rewrite Z.eqb_refl in Hfx.
      rewrite <- Hk, Z.eqb_refl in Hfx.
      injection Hfx as Hxy Htl. subst y.
      f_equal. apply IH; [exact Ht2|].
      intros z. specialize (Hf z). simpl in Hf.
      destruct (k x =? z)%Z; [injection Hf as Hf|]; exact Hf.
Qed.

(** [sorted] with a key that does not raise: the stable sort. *)
Lemma sorted_total (key : A -> result Z) (l : list A) :
  Forall (fun x => key x = Ok (k x)) l ->
  sorted key l = Ok (isort k l).
Proof.
  intros H. unfold sorted.
  rewrite (rmap_ok _ (fun x => (k x, x))).
  - simpl. fold (keyed_by k l).
    rewrite stable_sort_keyed, map_snd_keyed. reflexivity.
  - eapply Forall_impl; [|exact H].
    intros x Hx. simpl in Hx. rewrite Hx. reflexivity.
Qed.
End SortFacts.

(** ** Splitting and joining *)

Lemma split_not_nil (c : ascii) (s : string) : split c s <> [].
Proof.
  destruct s as [|a s']; simpl.
  - discriminate.
  - destruct (Ascii.eqb a c); [discriminate|].
    destruct (split c s'); discriminate.
Qed.

Lemma split_length (c : ascii) (s : string) :
  List.length (split c s) = S (count_char c s).
Proof.
  induction s as [|a s' IH]; simpl.
  - reflexivity.
  - destruct (Ascii.eqb a c); simpl.
    + rewrite IH. reflexivity.
    + destruct (split c s') as [|f fs] eqn:E; simpl in *; lia.
Qed.

(** Joining the pieces of a split with a one-character separator replaces
    the delimiter character by character. *)
Lemma join_split_replace (c d : ascii) (s : string) :
  join (String d EmptyString) (split c s) = replace_char c d s.
Proof.
  induction s as [|a s' IH]; simpl.
  - reflexivity.
  - destruct (Ascii.eqb a c) eqn:E.
    + pose proof (split_not_nil c s') as Hne.
      destruct (split c s') as [|f fs]; [contradiction|].
      change (join (String d EmptyString) (EmptyString :: f :: fs))
        with (String d (join (String d EmptyString) (f :: fs))).
      rewrite IH. reflexivity.
    + pose proof (split_not_nil c s') as Hne.
      destruct (split c s') as [|f fs]; [contradiction|].
      rewrite <- IH.
      destruct fs; reflexivity.
Qed.

Lemma count_replace_char (c d : ascii) (s : string) :
  c <> d ->
  count_char d (replace_char c d s) = count_char c s + count_char d s.
Proof.
  intros Hcd.
  induction s as [|a s' IH]; simpl.
  - reflexivity.
  - rewrite IH.
    destruct (Ascii.eqb a c) eqn:Ec.
    + apply Ascii.eqb_eq in Ec; subst a.
      rewrite Ascii.eqb_refl.
      destruct (Ascii.eqb c d) eqn:Ecd; [apply Ascii.eqb_eq in Ecd; contradiction|].
      lia.
    + destruct (Ascii.eqb a d); lia.
Qed.

(** Without a [d] in the original, splitting the replaced string on [d]
    gives the pieces of the original. *)
Lemma split_replace_char (c d : ascii) (s : string) :
  count_char d s = 0 ->
  split d (replace_char c d s) = split c s.
Proof.
  induction s as [|a s' IH]; simpl; intros H.
  - reflexivity.
  - destruct (Ascii.eqb a d) eqn:Ed; [discriminate|].
    simpl in H. specialize (IH H).
    destruct (Ascii.eqb a c) eqn:Ec.
    + rewrite Ascii.eqb_refl, IH. reflexivity.
    + rewrite Ed, IH. reflexivity.
Qed.

Lemma prep_data_row (row : string) :
  join "," (split pipe row) = replace_char pipe comma row.
Proof. apply (join_split_replace pipe comma). Qed.

Lemma prep_data_nth (data : list string) (i : nat) (row : string) :
  nth_error data i = Some row ->
  nth_error (prep_data data) i = Some (join "," (split pipe row)).
Proof.
  intros H. unfold prep_data.
  rewrite nth_error_map, H. reflexivity.
Qed.

(** ** Indexing *)

Lemma py_index_0 {A : Type} (x : A) (t : list A) : py_index (x :: t) 0 = Ok x.
Proof.
  unfold py_index.
  change (0 <? 0)%Z with false. cbv iota. cbn [orb].
  destruct (Z.of_nat (List.length (x :: t)) <=? 0)%Z eqn:E.
  - apply Z.leb_le in E. simpl List.length in E. lia.
  - reflexivity.
Qed.

Lemma py_index_1 {A : Type} (x y : A) (t : list A) :
  py_index (x :: y :: t) 1 = Ok y.
Proof.
  unfold py_index.
  change (1 <? 0)%Z with false. cbv iota. cbn [orb].
  destruct (Z.of_nat (List.length (x :: y :: t)) <=? 1)%Z eqn:E.
  - apply Z.leb_le in E. simpl List.length in E. lia.
  - reflexivity.
Qed.

Lemma py_index_1_single {A : Type} (x : A) : py_index [x] 1 = Raise IndexError.
Proof. reflexivity. Qed.

(** ** The key and the projection of [prep_cols] *)

Lemma sort_key_first (line : string) :
  sort_key (Some 0%Z) line = int (first_segment line).
Proof.
  unfold sort_key, first_segment.
  pose proof (split_not_nil pipe line) as Hne.
  destruct (split pipe line) as [|o t]; [contradiction|].
  rewrite py_index_0. reflexivity.
Qed.

Lemma sort_key_ordinal (line : string) (z : Z) :
  py_int (first_segment line) = Some z ->
  sort_key (Some 0%Z) line = Ok z /\ ordinal line = z.
Proof.
  intros H. unfold ordinal. rewrite sort_key_first. unfold int.
  rewrite H. split; reflexivity.
Qed.

Lemma sort_key_unparseable (line : string) :
  py_int (first_segment line) = None ->
  sort_key (Some 0%Z) line = Raise ValueError.
Proof.
  intros H. rewrite sort_key_first. unfold int. rewrite H. reflexivity.
Qed.

Lemma accepted_column_inv (line : string) :
  accepted_column line = true ->
  exists o n rest z,
    split pipe line = o :: n :: rest /\ py_int o = Some z /\
    sort_key (Some 0%Z) line = Ok (ordinal line) /\
    py_index (split pipe line) 1 = Ok (column_name line) /\
    ordinal line = z /\ column_name line = n.
Proof.
  unfold accepted_column. intros H.
  destruct (split pipe line) as [|o [|n rest]] eqn:E; try discriminate.
  destruct (py_int o) as [z|] eqn:Ez; [|discriminate].
  assert (Hf : py_int (first_segment line) = Some z).
  { unfold first_segment. rewrite E. exact Ez. }
  destruct (sort_key_ordinal line z Hf) as [Hk Ho].
  exists o, n, rest, z.
  unfold column_name. rewrite E, py_index_1.
  repeat split; try assumption; try reflexivity.
  rewrite Ho. exact Hk.
Qed.

Lemma well_formed_accepted (line : string) :
  well_formed_column line = true -> accepted_column line = true.
Proof.
  unfold well_formed_column, accepted_column.
  destruct (split pipe line) as [|o [|n [|x rest]]]; try discriminate.
  intros H; exact H.
Qed.

(** On accepted lines [sort_by] does not raise and returns the lines in
    the stable order of their ordinals. *)
Lemma sort_by_accepted (cols : list string) :
  Forall (fun l => accepted_column l = true) cols ->
  sort_by cols (Some 0%Z) = Ok (isort ordinal cols).
Proof.
  intros H. unfold sort_by.
  apply sorted_total.
  eapply Forall_impl; [|exact H].
  intros l Hl. simpl in Hl.
  destruct (accepted_column_inv l Hl) as (o & n & rest & z & _ & _ & Hk & _).
  exact Hk.
Qed.

(** On accepted lines [prep_cols] returns the names of the lines in the
    stable order of their ordinals. *)
Lemma prep_cols_accepted (cols : list string) :
  Forall (fun l => accepted_column l = true) cols ->
  prep_cols cols = Ok (map column_name (isort ordinal cols)).
Proof.
  intros H. unfold prep_cols.
  rewrite (sort_by_accepted cols H). cbn [rbind].
  apply rmap_ok.
  apply (Permutation_Forall (Permutation_sym (isort_perm ordinal cols))).
  eapply Forall_impl; [|exact H].
  intros l Hl. simpl in Hl.
  destruct (accepted_column_inv l Hl) as (o & n & rest & z & _ & _ & _ & Hi & _).
  exact Hi.
Qed.

Lemma well_formed_column_inv (line : string) :
  well_formed_column line = true ->
  exists o n : string,
    split pipe line = [o; n] /\
    py_int o = Some (ordinal line) /\
    column_name line = n.
Proof.
  intros H.
  destruct (accepted_column_inv line (well_formed_accepted line H))
    as (o & n & rest & z & E & Hz & _ & _ & Ho & Hn).
  unfold well_formed_column in H. rewrite E in H.
  destruct rest as [|x rest]; [|discriminate].
  exists o, n. rewrite Ho. repeat split; assumption.
Qed.

(** Either every first segment is an integer literal or one is not. *)
Lemma first_segments_dec (cols : list string) :
  Forall (fun l => py_int (first_segment l) <> None) cols \/
  Exists (fun l => py_int (first_segment l) = None) cols.
Proof.
  induction cols as [|l t [IH|IH]].
  - left. constructor.
  - destruct (py_int (first_segment l)) as [z|] eqn:E.
    + left. constructor; [rewrite E; discriminate | exact IH].
    + right. apply Exists_cons_hd, E.
  - right. apply Exists_cons_tl, IH.
Qed.

(** ** Runs of the entry point *)
Lemma bind_return {A B : Type} (m : M A) (k : A -> M B) (fs : files)
    (t : list event) (a : A) :
  m fs = (t, Return a) ->
  bind m k fs = (t ++ fst (k a fs), snd (k a fs)).
Proof.
  intros H. unfold bind. rewrite H. destruct (k a fs); reflexivity.
Qed.

Lemma bind_exit {A B : Type} (m : M A) (k : A -> M B) (fs : files)
    (t : list event) :
  m fs = (t, SysExit) -> bind m k fs = (t, SysExit).
Proof. intros H. unfold bind. rewrite H. reflexivity. Qed.

Lemma bind_uncaught {A B : Type} (m : M A) (k : A -> M B) (fs : files)
    (t : list event) (e : exn) :
  m fs = (t, Uncaught e) -> bind m k fs = (t, Uncaught e).
Proof. intros H. unfold bind. rewrite H. reflexivity. Qed.

Lemma read_file_missing (p : Path) (fs : files) :
  fs p = None ->
  read_file (Some p) true fs =
    ([Log INFO ("Attempting to read file " ++ path_name p)],
     Uncaught FileNotFoundError).
Proof.
  intros H. unfold read_file, log_read_file, read_file_body, readlines, bind, log, emit.
  rewrite H. reflexivity.
Qed.

Lemma read_file_empty (p : Path) (fs : files) :
  fs p = Some [] ->
  read_file (Some p) true fs =
    ([Log INFO ("Attempting to read file " ++ path_name p);
      ReadFile p;
      Log WARNING ("File, " ++ path_name p ++ " is empty.")],
     Return None).
Proof.
  intros H. unfold read_file, log_read_file, read_file_body, readlines, bind, log, emit.
  rewrite H. reflexivity.
Qed.

Lemma read_file_lines (p : Path) (fs : files) (raw : list string) :
  fs p = Some raw -> raw <> [] ->
  read_file (Some p) true fs =
    ([Log INFO ("Attempting to read file " ++ path_name p);
      ReadFile p;
      Log INFO ("Successfully read file " ++ path_name p)],
     Return (Some (map strip raw))).
Proof.
  intros H Hne. unfold read_file, log_read_file, read_file_body, readlines, bind, log, emit.
  rewrite H. destruct raw as [|r raw']; [contradiction|]. reflexivity.
Qed.



Lemma falsy_map {A B : Type} (f : A -> B) (l : list A) :
  l <> [] -> falsy (Some (map f l)) = false.
Proof. destruct l; [contradiction | reflexivity]. Qed.

Lemma written_app (t1 t2 : list event) :
  written (t1 ++ t2) = written t1 ++ written t2.
Proof.
  induction t1 as [|e t IH]; simpl.
  - reflexivity.
  - destruct e; simpl; rewrite IH; reflexivity.
Qed.

Lemma loaded_app (t1 t2 : list event) :
  loaded (t1 ++ t2) = loaded t1 ++ loaded t2.
Proof.
  induction t1 as [|e t IH]; simpl.
  - reflexivity.
  - destruct e; simpl; rewrite IH; reflexivity.
Qed.

Lemma verify_and_load_match (cfg : config) (row_count : Z) (fs : files) :
  (row_count - 1)%Z = EXPECTED_ROW_COUNT cfg ->
  verify_and_load cfg row_count fs =
    ([Log INFO "Running row count verification...";
      Log INFO "Row count verification succeeeded...";
      Log INFO "Attempting to move CSV file to destination...";
      LoadCsv (DEST_DATA_FILENAME cfg);
      Log INFO ("Successfully moved file " ++ DEST_DATA_FILENAME cfg ++ "...");
      Log INFO "ETL process complete..."],
     Return tt).
Proof.
  intros H. unfold verify_and_load, bind.
  apply Z.eqb_eq in H. rewrite H. reflexivity.
Qed.

Lemma verify_and_load_mismatch (cfg : config) (row_count : Z) (fs : files) :
  (row_count - 1)%Z <> EXPECTED_ROW_COUNT cfg ->
  verify_and_load cfg row_count fs =
    ([Log INFO "Running row count verification...";
      Log CRITICAL "Row counts between source data and CSV file not matching!"],
     SysExit).
Proof.
  intros H. unfold verify_and_load, bind.
  apply Z.eqb_neq in H. rewrite H. reflexivity.
Qed.

Section Runs.
Variable cfg : config.
Variable fs : files.

Lemma main_columns_missing :
  fs (SOURCE_COLUMNS cfg) = None ->
  main cfg fs =
    ([Log INFO "Beginning the ETL process...";
      Log INFO ("Attempting to read file " ++ path_name (SOURCE_COLUMNS cfg))],
     Uncaught FileNotFoundError).
Proof.
  intros H. unfold main, bind.
  rewrite (read_file_missing _ fs H). reflexivity.
Qed.

Lemma main_columns_empty :
  fs (SOURCE_COLUMNS cfg) = Some [] ->
  main cfg fs =
    ([Log INFO "Beginning the ETL process...";
      Log INFO ("Attempting to read file " ++ path_name (SOURCE_COLUMNS cfg));
      ReadFile (SOURCE_COLUMNS cfg);
      Log WARNING ("File, " ++ path_name (SOURCE_COLUMNS cfg) ++ " is empty.")],
     SysExit).
Proof.
  intros H. unfold main, bind.
  rewrite (read_file_empty _ fs H). reflexivity.
Qed.

Lemma main_columns_raise (raw : list string) (e : exn) :
  fs (SOURCE_COLUMNS cfg) = Some raw -> raw <> [] ->
  prep_cols (map strip raw) = Raise e ->
  main cfg fs = (columns_read cfg, Uncaught e).
Proof.
  intros H Hne Hp. unfold main, bind.
  rewrite (read_file_lines _ fs raw H Hne), (falsy_map strip raw Hne).
  cbn [log emit list_of]. rewrite Hp. reflexivity.
Qed.

Lemma main_data_missing (raw names : list string) :
  fs (SOURCE_COLUMNS cfg) = Some raw -> raw <> [] ->
  prep_cols (map strip raw) = Ok names ->
  fs (SOURCE_DATA cfg) = None ->
  main cfg fs =
    (columns_read cfg ++
     [Log INFO ("Attempting to read file " ++ path_name (SOURCE_DATA cfg))],
     Uncaught FileNotFoundError).
Proof.
  intros H Hne Hp Hd. unfold main, bind.
  rewrite (read_file_lines _ fs raw H Hne), (falsy_map strip raw Hne).
  cbn [log emit list_of]. rewrite Hp. cbn [lift ret].
  rewrite (read_file_missing _ fs Hd). reflexivity.
Qed.

Lemma main_data_empty (raw names : list string) :
  fs (SOURCE_COLUMNS cfg) = Some raw -> raw <> [] ->
  prep_cols (map strip raw) = Ok names ->
  fs (SOURCE_DATA cfg) = Some [] ->
  main cfg fs =
    (columns_read cfg ++
     [Log INFO ("Attempting to read file " ++ path_name (SOURCE_DATA cfg));
      ReadFile (SOURCE_DATA cfg);
      Log WARNING ("File, " ++ path_name (SOURCE_DATA cfg) ++ " is empty.")],
     SysExit).
Proof.
  intros H Hne Hp Hd. unfold main, bind.
  rewrite (read_file_lines _ fs raw H Hne), (falsy_map strip raw Hne).
  cbn [log emit list_of]. rewrite Hp. cbn [lift ret].
  rewrite (read_file_empty _ fs Hd). reflexivity.
Qed.

(** Both files read and the columns prepared: the artifact is written,
    and the run goes on with the verification of its row count. *)
Lemma main_composed (raw names rows : list string) :
  fs (SOURCE_COLUMNS cfg) = Some raw -> raw <> [] ->
  prep_cols (map strip raw) = Ok names ->
  fs (SOURCE_DATA cfg) = Some rows -> rows <> [] ->
  let lines := join "," names :: prep_data (map strip rows) in
  let check := verify_and_load cfg (Z.of_nat (List.length lines)) fs in
  main cfg fs =
    (columns_read cfg ++
     [Log INFO ("Attempting to read file " ++ path_name (SOURCE_DATA cfg));
      ReadFile (SOURCE_DATA cfg);
      Log INFO ("Successfully read file " ++ path_name (SOURCE_DATA cfg));
      Log INFO "Prepping source data...";
      Log INFO "Composing CSV file...";
      Log INFO "Writing CSV data to file...";
      WriteFile (DEST_DATA_FILENAME cfg) (join newline lines)] ++ fst check,
     snd check).
Proof.
  intros H Hne Hp Hd Hdne lines check. unfold main, bind.
  rewrite (read_file_lines _ fs raw H Hne), (falsy_map strip raw Hne).
  cbn [log emit list_of]. rewrite Hp. cbn [lift ret].
  rewrite (read_file_lines _ fs rows Hd Hdne), (falsy_map strip rows Hdne).
  cbn [list_of].
  assert (Hc : compose_csv_data (Some (prep_data (map strip rows)))
                 (Some [join "," names]) fs =
               ([], Return (Some {| data := lines;
                                    row_count := Z.of_nat (List.length lines) |}))).
  { unfold compose_csv_data. cbn [falsy orb].
    destruct rows as [|r rows']; [contradiction|]. reflexivity. }
  rewrite Hc. cbn [data row_count].
  fold check. destruct check as [t o]. reflexivity.
Qed.
End Runs.

(** ** Column preparation *)

(** C2. For well-formed column lines [<ordinal>|<name>], [prep_cols] returns
    the names of the lines arranged in ascending order of the integer value
    of the ordinal, lines of equal ordinal keeping their original relative
    order; as many names come out as lines went in. *)
Theorem prep_cols_sorted_stable (cols : list string) :
  Forall (fun l => well_formed_column l = true) cols ->
  Forall (fun l => exists o n : string,
              split pipe l = [o; n] /\ py_int o = Some (ordinal l) /\
              column_name l = n) cols /\
  exists cols_sorted : list string,
    sort_by cols (Some 0%Z) = Ok cols_sorted /\
    prep_cols cols = Ok (map column_name cols_sorted) /\
    Permutation cols_sorted cols /\
    key_sorted ordinal cols_sorted /\
    (forall z : Z, with_key ordinal z cols_sorted = with_key ordinal z cols) /\
    List.length (map column_name cols_sorted) = List.length cols.
Proof.
  intros Hwf.
  assert (Hacc : Forall (fun l => accepted_column l = true) cols).
  { eapply Forall_impl; [|exact Hwf].
    intros l Hl. apply well_formed_accepted, Hl. }
  split.
  { eapply Forall_impl; [|exact Hwf].
    intros l Hl. apply well_formed_column_inv, Hl. }
  exists (isort ordinal cols).
  split; [|split; [|split; [|split; [|split]]]].
  - apply sort_by_accepted, Hacc.
  - apply prep_cols_accepted, Hacc.
  - apply isort_perm.
  - apply isort_sorted.
  - intros z. apply isort_with_key.
  - rewrite length_map.
    apply Permutation_length, isort_perm.
Qed.

Lemma prep_cols_sorted_stable_witness :
  Forall (fun l => exists o n : string,
              split pipe l = [o; n] /\ py_int o = Some (ordinal l) /\
              column_name l = n)
    ["2|city"; "1|name"; "0|id"; "1|alias"] /\
  exists cols_sorted : list string,
    sort_by ["2|city"; "1|name"; "0|id"; "1|alias"] (Some 0%Z)
      = Ok cols_sorted /\
    prep_cols ["2|city"; "1|name"; "0|id"; "1|alias"]
      = Ok (map column_name cols_sorted) /\
    Permutation cols_sorted ["2|city"; "1|name"; "0|id"; "1|alias"] /\
    key_sorted ordinal cols_sorted /\
    (forall z : Z,
        with_key ordinal z cols_sorted
        = with_key ordinal z ["2|city"; "1|name"; "0|id"; "1|alias"]) /\
    List.length (map column_name cols_sorted) = 4.
Proof.
  apply (prep_cols_sorted_stable ["2|city"; "1|name"; "0|id"; "1|alias"]).
  repeat constructor.
Defined.

(** C10. A column line with two or more delimiters whose first segment is
    an integer literal does not make [prep_cols] fail, whatever accepted
    lines stand around it: its first segment is its ordinal, its second
    segment its name, and the segments after the second appear nowhere in
    the result, which is the names of the lines in the stable order of
    their ordinals. *)
Theorem prep_cols_extra_segments
    (before after : list string) (line : string) (z : Z) :
  2 <= count_char pipe line ->
  py_int (first_segment line) = Some z ->
  Forall (fun l => accepted_column l = true) (before ++ after) ->
  exists (o n : string) (rest : list string),
    split pipe line = o :: n :: rest /\ rest <> [] /\
    ordinal line = z /\ column_name line = n /\
    prep_cols (before ++ line :: after)
      = Ok (map column_name (isort ordinal (before ++ line :: after))) /\
    prep_cols [line] = Ok [n].
Proof.
  intros Hcount Hint Hothers.
  pose proof (split_length pipe line) as Hlen.
  destruct (split pipe line) as [|o [|n [|x rest]]] eqn:E;
    simpl in Hlen; try lia.
  assert (Hacc : accepted_column line = true).
  { unfold accepted_column. rewrite E.
    unfold first_segment in Hint. rewrite E in Hint. simpl in Hint.
    rewrite Hint. reflexivity. }
  destruct (sort_key_ordinal line z Hint) as [_ Ho].
  assert (Hn : column_name line = n).
  { unfold column_name. rewrite E, py_index_1. reflexivity. }
  exists o, n, (x :: rest).
  split; [reflexivity|]. split; [discriminate|].
  split; [exact Ho|]. split; [exact Hn|]. split.
  - apply prep_cols_accepted.
    apply Forall_app in Hothers. destruct Hothers as [Hb Ha].
    apply Forall_app. split; [exact Hb|].
    constructor; assumption.
  - rewrite (prep_cols_accepted [line]).
    + simpl. rewrite Hn. reflexivity.
    + constructor; [exact Hacc | constructor].
Qed.

Lemma prep_cols_extra_segments_witness :
  exists (o n : string) (rest : list string),
    split pipe "1|name|extra" = o :: n :: rest /\ rest <> [] /\
    ordinal "1|name|extra" = 1%Z /\ column_name "1|name|extra" = n /\
    prep_cols (["2|city"] ++ "1|name|extra" :: ["0|id"])
      = Ok (map column_name
              (isort ordinal (["2|city"] ++ "1|name|extra" :: ["0|id"]))) /\
    prep_cols ["1|name|extra"] = Ok [n].
Proof.
  apply (prep_cols_extra_segments ["2|city"] ["0|id"] "1|name|extra" 1%Z).
  - simpl. lia.
  - reflexivity.
  - repeat constructor.
Defined.

(** A line accepted by [prep_cols] although it does not contain the
    delimiter exactly once. *)
Lemma three_segments_accepted :
  count_char pipe "7|amount|unused" = 2 /\
  prep_cols ["7|amount|unused"] = Ok ["amount"].
Proof. split; reflexivity. Qed.

(** Accepted: one delimiter or more, and an integer literal in front of
    the first. *)
Lemma accepted_column_iff (line : string) :
  accepted_column line = true <->
  1 <= count_char pipe line /\ py_int (first_segment line) <> None.
Proof.
  unfold accepted_column, first_segment.
  pose proof (split_length pipe line) as Hlen.
  destruct (split pipe line) as [|o [|n rest]]; simpl in Hlen |- *.
  - discriminate.
  - split; [discriminate|]. intros [H _]. lia.
  - destruct (py_int o) as [z|].
    + split; [|reflexivity]. intros _. split; [lia | discriminate].
    + split; [discriminate|]. intros [_ H]. contradiction H; reflexivity.
Qed.

(** C5, as the code has it. A column line without delimiter, or whose first
    segment is no integer literal, makes [prep_cols] raise: [ValueError] as
    soon as one first segment is no integer literal, [IndexError] when all
    first segments are integer literals and one line has no delimiter. The
    exception ends the run before the data file is read, before anything is
    written and before the storage library is called. Lines with more than
    one delimiter are accepted: when every line has at least one delimiter
    and an integer literal in front of the first, [prep_cols] returns the
    second segments in the stable order of the ordinals. *)
Theorem prep_cols_malformed (cols : list string) :
  (Exists (fun l => count_char pipe l = 0 \/ py_int (first_segment l) = None)
     cols ->
   prep_cols cols = Raise ValueError \/ prep_cols cols = Raise IndexError) /\
  (Exists (fun l => py_int (first_segment l) = None) cols ->
   prep_cols cols = Raise ValueError) /\
  (Forall (fun l => py_int (first_segment l) <> None) cols ->
   Exists (fun l => count_char pipe l = 0) cols ->
   prep_cols cols = Raise IndexError) /\
  (forall (cfg : config) (fs : files) (raw : list string) (e : exn),
      fs (SOURCE_COLUMNS cfg) = Some raw -> raw <> [] ->
      map strip raw = cols ->
      prep_cols cols = Raise e ->
      snd (main cfg fs) = Uncaught e /\
      files_read (fst (main cfg fs)) = [SOURCE_COLUMNS cfg] /\
      written (fst (main cfg fs)) = [] /\
      loaded (fst (main cfg fs)) = []) /\
  (Forall (fun l => 1 <= count_char pipe l /\
                    py_int (first_segment l) <> None) cols ->
   prep_cols cols = Ok (map column_name (isort ordinal cols))).
Proof.
  assert (Hvalue : Exists (fun l => py_int (first_segment l) = None) cols ->
                   prep_cols cols = Raise ValueError).
  { intros Hbad. unfold prep_cols, sort_by, sorted.
    rewrite (rmap_raise _ ValueError); [reflexivity| |].
    - apply Forall_forall. intros l _.
      rewrite sort_key_first. unfold int.
      destruct (py_int (first_segment l)) as [k|]; simpl.
      + left. eexists; reflexivity.
      + right. reflexivity.
    - eapply Exists_impl; [|exact Hbad].
      intros l Hl. simpl in Hl.
      rewrite (sort_key_unparseable l Hl). reflexivity. }
  assert (Hindex : Forall (fun l => py_int (first_segment l) <> None) cols ->
                   Exists (fun l => count_char pipe l = 0) cols ->
                   prep_cols cols = Raise IndexError).
  { intros Hall Hbad. unfold prep_cols, sort_by.
    rewrite (sorted_total ordinal).
    - cbn [rbind]. apply rmap_raise.
      + apply Forall_forall. intros l _.
        pose proof (split_not_nil pipe l) as Hne.
        destruct (split pipe l) as [|o [|n rest]]; [contradiction| |].
        * right. apply py_index_1_single.
        * left. exists n. apply py_index_1.
      + apply Exists_exists in Hbad. destruct Hbad as (l & Hin & Hl).
        apply Exists_exists. exists l. split.
        * apply (Permutation_in _ (Permutation_sym (isort_perm ordinal cols))).
          exact Hin.
        * pose proof (split_length pipe l) as Hlen. rewrite Hl in Hlen.
          destruct (split pipe l) as [|o [|n rest]]; try discriminate.
          apply py_index_1_single.
    - eapply Forall_impl; [|exact Hall].
      intros l Hl. simpl in Hl.
      destruct (py_int (first_segment l)) as [k|] eqn:Ek; [|contradiction].
      destruct (sort_key_ordinal l k Ek) as [Hk Ho].
      rewrite Ho. exact Hk. }
  split; [|split; [exact Hvalue|split; [exact Hindex|split]]].
  - intros Hbad.
    destruct (first_segments_dec cols) as [Hall|Hsome].
    + right. apply Hindex; [exact Hall|].
      apply Exists_exists in Hbad. destruct Hbad as (l & Hin & [Hl|Hl]).
      * apply Exists_exists. exists l. split; assumption.
      * rewrite Forall_forall in Hall. contradiction (Hall l Hin).
    + left. apply Hvalue, Hsome.
  - intros cfg fs raw e Hfs Hne <- Hraise.
    rewrite (main_columns_raise cfg fs raw e Hfs Hne Hraise).
    repeat split.
  - intros Hok. apply prep_cols_accepted.
    eapply Forall_impl; [|exact Hok].
    intros l Hl. apply accepted_column_iff, Hl.
Qed.

Lemma prep_cols_malformed_witness :
  (prep_cols ["1|name"; "id"] = Raise ValueError \/
   prep_cols ["1|name"; "id"] = Raise IndexError) /\
  prep_cols ["abc|name"; "0|id"] = Raise ValueError /\
  prep_cols ["1|name"; "0"] = Raise IndexError /\
  snd (main (example_config 2) (example_files [" abc|name "] ["2|bob"]))
    = Uncaught ValueError /\
  prep_cols ["3|c|x|y"; "1|a|"; "2|b"]
    = Ok (map column_name (isort ordinal ["3|c|x|y"; "1|a|"; "2|b"])).
Proof.
  split; [|split; [|split; [|split]]].
  - apply (proj1 (prep_cols_malformed ["1|name"; "id"])).
    apply Exists_cons_tl. constructor. left. reflexivity.
  - apply (proj1 (proj2 (prep_cols_malformed ["abc|name"; "0|id"]))).
    constructor. reflexivity.
  - apply (proj1 (proj2 (proj2 (prep_cols_malformed ["1|name"; "0"])))).
    + repeat constructor; discriminate.
    + apply Exists_cons_tl. constructor. reflexivity.
  - apply (proj1 (proj2 (proj2 (proj2 (prep_cols_malformed ["abc|name"]))))
             (example_config 2)
             (example_files [" abc|name "] ["2|bob"])
             [" abc|name "] ValueError).
    + reflexivity.
    + discriminate.
    + reflexivity.
    + reflexivity.
  - apply (proj2 (proj2 (proj2 (proj2
             (prep_cols_malformed ["3|c|x|y"; "1|a|"; "2|b"]))))).
    repeat constructor; simpl; try lia; discriminate.
Defined.

(** ** Row transformation *)

(** A row with a comma inside a field: the transformed row splits into
    three fields, the original into two. *)
Lemma embedded_comma_breaks_round_trip :
  prep_data ["a,b|c"] = ["a,b,c"] /\
  split comma "a,b,c" = ["a"; "b"; "c"] /\
  split pipe "a,b|c" = ["a,b"; "c"] /\
  map (split comma) (prep_data ["a,b|c"]) <> map (split pipe) ["a,b|c"].
Proof. repeat split. discriminate. Qed.

(** Splitting the replaced string on [d] gives, field by field of the
    original, the pieces of that field at its own [d]s. *)
Lemma split_replace_flat (c d : ascii) (s : string) :
  split d (replace_char c d s) = flat_map (split d) (split c s).
Proof.
  induction s as [|a s' IH].
  - reflexivity.
  - cbn [replace_char split].
    destruct (Ascii.eqb a c) eqn:Ec.
    + rewrite Ascii.eqb_refl, IH. reflexivity.
    + pose proof (split_not_nil c s') as Hne.
      destruct (split c s') as [|f fs]; [contradiction|].
      cbn [flat_map] in IH |- *. rewrite IH.
      cbn [split].
      destruct (Ascii.eqb a d).
      * reflexivity.
      * pose proof (split_not_nil d f) as Hnf.
        destruct (split d f) as [|g gs]; [contradiction|].
        reflexivity.
Qed.

(** C3, as the code has it. Each transformed row, whatever it contains, is
    the original with every pipe replaced by a comma and nothing escaped,
    so that splitting it on the comma gives, field by field of the
    original, the pieces of that field at its own commas: a comma inside a
    field becomes a field boundary. For data rows that contain no comma,
    splitting each transformed row on the comma gives the field sequence
    that splitting the original row on the pipe gives. *)
Theorem prep_data_round_trip (data : list string) :
  prep_data data = map (replace_char pipe comma) data /\
  map (split comma) (prep_data data)
  = map (fun row => flat_map (split comma) (split pipe row)) data /\
  (Forall (fun row => count_char comma row = 0) data ->
   map (split comma) (prep_data data) = map (split pipe) data).
Proof.
  unfold prep_data.
  split; [|split].
  - apply map_ext. intros row. apply prep_data_row.
  - rewrite map_map. apply map_ext. intros row.
    rewrite prep_data_row. apply split_replace_flat.
  - intros Hclean. rewrite map_map.
    apply map_ext_in. intros row Hin.
    rewrite Forall_forall in Hclean.
    rewrite prep_data_row.
    apply split_replace_char, Hclean, Hin.
Qed.

Lemma prep_data_round_trip_witness :
  map (split comma) (prep_data ["2|bob"; "1|alice"; "|"; ""])
    = map (split pipe) ["2|bob"; "1|alice"; "|"; ""].
Proof.
  apply (proj2 (proj2 (prep_data_round_trip ["2|bob"; "1|alice"; "|"; ""]))).
  repeat constructor.
Defined.

(** A row with a comma inside a field has two fields and is transformed
    into a row of three. *)
Lemma embedded_comma_adds_field :
  exists out : string,
    nth_error (prep_data ["x|y,z"]) 0 = Some out /\
    List.length (split comma out) = 3 /\
    List.length (split pipe "x|y,z") = 2.
Proof. exists "x,y,z". repeat split. Qed.

(** C8, as the code has it. [prep_data] gives as many lines as it gets,
    the line at each position being the transformation of the input line at
    that position; the number of comma-separated fields of an output line
    is the number of pipe-separated fields of its input line plus the
    number of commas in that input line, hence the same number when the
    input line contains no comma. *)
Theorem prep_data_length_preserving (data : list string) :
  List.length (prep_data data) = List.length data /\
  (forall (i : nat) (row : string),
      nth_error data i = Some row ->
      nth_error (prep_data data) i = Some (join "," (split pipe row)) /\
      List.length (split comma (join "," (split pipe row)))
        = List.length (split pipe row) + count_char comma row /\
      (count_char comma row = 0 ->
       List.length (split comma (join "," (split pipe row)))
         = List.length (split pipe row))).
Proof.
  split.
  - unfold prep_data. apply length_map.
  - intros i row Hrow.
    assert (Hcount :
      List.length (split comma (join "," (split pipe row)))
      = List.length (split pipe row) + count_char comma row).
    { rewrite prep_data_row, !split_length, count_replace_char.
      - reflexivity.
      - discriminate. }
    split; [apply prep_data_nth, Hrow|].
    split; [exact Hcount|].
    intros Hclean. rewrite Hcount, Hclean. lia.
Qed.

Lemma prep_data_length_preserving_witness :
  List.length (prep_data ["2|bob"; "1|alice"]) = 2 /\
  nth_error (prep_data ["2|bob"; "1|alice"]) 1 = Some "1,alice" /\
  List.length (split comma "1,alice") = List.length (split pipe "1|alice").
Proof.
  pose proof (prep_data_length_preserving ["2|bob"; "1|alice"]) as [Hlen Hrows].
  destruct (Hrows 1 "1|alice" eq_refl) as (Hnth & _ & Hfields).
  split; [exact Hlen|].
  split; [exact Hnth|].
  apply Hfields. reflexivity.
Defined.

(** ** Composition *)

(** C6. When the body or the header given to [compose_csv_data] is [None]
    or empty, the composition fails: an error is logged and [None] is
    returned. Otherwise the lines are the header followed by the body, as
    they are, and the row count is the number of lines. *)
Theorem compose_csv_data_spec (data cols : option (list string)) (fs : files) :
  (data = None \/ data = Some [] \/ cols = None \/ cols = Some [] ->
   compose_csv_data data cols fs
     = ([Log ERROR "Provide valid data and columns."], Return None)) /\
  (forall body header : list string,
      data = Some body -> cols = Some header ->
      body <> [] -> header <> [] ->
      compose_csv_data data cols fs
        = ([], Return (Some {| data := header ++ body;
                               row_count :=
                                 Z.of_nat (List.length (header ++ body)) |}))).
Proof.
  split.
  - intros H. unfold compose_csv_data.
    assert (Hf : falsy data || falsy cols = true).
    { destruct H as [-> | [-> | [-> | ->]]]; simpl; try reflexivity;
        apply orb_true_r. }
    rewrite Hf. reflexivity.
  - intros body header -> -> Hb Hh. unfold compose_csv_data.
    destruct body as [|b body']; [contradiction|].
    destruct header as [|h header']; [contradiction|].
    reflexivity.
Qed.

Lemma compose_csv_data_spec_witness :
  compose_csv_data (Some ["2,bob"]) (Some []) (example_files [] [])
    = ([Log ERROR "Provide valid data and columns."], Return None) /\
  compose_csv_data (Some ["b"; "a"; "b"]) (Some ["h"]) (example_files [] [])
    = ([], Return (Some {| data := ["h"; "b"; "a"; "b"]; row_count := 4 |})).
Proof.
  split.
  - apply (proj1 (compose_csv_data_spec (Some ["2,bob"]) (Some [])
                    (example_files [] []))).
    right; right; right; reflexivity.
  - apply (proj2 (compose_csv_data_spec (Some ["b"; "a"; "b"]) (Some ["h"])
                    (example_files [] []))
             ["b"; "a"; "b"] ["h"]); try reflexivity; discriminate.
Defined.

(** ** Validation and hand-over *)

Lemma composed_row_count (header : string) (rows : list string) :
  (Z.of_nat (List.length (header :: prep_data (map strip rows))) - 1)%Z
  = Z.of_nat (List.length rows).
Proof.
  unfold prep_data. simpl List.length. rewrite !length_map. lia.
Qed.

Lemma cons_not_nil {A : Type} (x : A) (l : list A) : x :: l <> [].
Proof. discriminate. Qed.

(** What reaches the storage library comes from a run that read a data
    file of exactly the expected number of lines and completed. *)
Lemma main_loaded_inv (cfg : config) (fs : files) :
  loaded (fst (main cfg fs)) <> [] ->
  exists rows : list string,
    fs (SOURCE_DATA cfg) = Some rows /\
    Z.of_nat (List.length rows) = EXPECTED_ROW_COUNT cfg /\
    snd (main cfg fs) = Return tt.
Proof.
  destruct (fs (SOURCE_COLUMNS cfg)) as [[|c raw]|] eqn:Hcols.
  - rewrite (main_columns_empty cfg fs Hcols).
    intros H; contradiction H; reflexivity.
  - pose proof (cons_not_nil c raw) as Hne.
    destruct (prep_cols (map strip (c :: raw))) as [names|e] eqn:Hprep.
    + destruct (fs (SOURCE_DATA cfg)) as [[|r rows]|] eqn:Hdata.
      * rewrite (main_data_empty cfg fs _ _ Hcols Hne Hprep Hdata).
        intros H; contradiction H; reflexivity.
      * rewrite (main_composed cfg fs _ _ _ Hcols Hne Hprep Hdata
                   (cons_not_nil r rows)).
        cbn zeta. cbn [fst snd].
        pose proof (composed_row_count (join "," names) (r :: rows)) as Hrc.
        destruct (Z.eq_dec (Z.of_nat (List.length (r :: rows)))
                    (EXPECTED_ROW_COUNT cfg)) as [Heq|Hneq].
        -- intros _. exists (r :: rows).
           split; [reflexivity|]. split; [exact Heq|].
           rewrite verify_and_load_match; [reflexivity|].
           rewrite Hrc. exact Heq.
        -- rewrite verify_and_load_mismatch by (rewrite Hrc; exact Hneq).
           intros H; contradiction H; reflexivity.
      * rewrite (main_data_missing cfg fs _ _ Hcols Hne Hprep Hdata).
        intros H; contradiction H; reflexivity.
    + rewrite (main_columns_raise cfg fs _ e Hcols Hne Hprep).
      intros H; contradiction H; reflexivity.
  - rewrite (main_columns_missing cfg fs Hcols).
    intros H; contradiction H; reflexivity.
Qed.

(** With the constants of the module, only a data file of 1000 lines
    reaches the storage library. *)
Lemma source_config_expects_1000 (root uuid : string) (fs : files) :
  loaded (fst (main (source_config root uuid) fs)) <> [] ->
  exists rows : list string,
    fs (SOURCE_DATA (source_config root uuid)) = Some rows /\
    List.length rows = 1000.
Proof.
  intros H.
  destruct (main_loaded_inv _ fs H) as (rows & Hrows & Hlen & _).
  exists rows. split; [exact Hrows|].
  change (EXPECTED_ROW_COUNT (source_config root uuid)) with 1000%Z in Hlen.
  lia.
Qed.

(** The report of a mismatch is the same whatever the counts are: no
    function recovers the observed and the expected count from it. *)
Lemma mismatch_report_has_no_counts :
  ~ exists counts_of : list event * outcome unit -> Z * Z,
      forall (cfg : config) (row_count : Z) (fs : files),
        (row_count - 1)%Z <> EXPECTED_ROW_COUNT cfg ->
        counts_of (verify_and_load cfg row_count fs)
        = ((row_count - 1)%Z, EXPECTED_ROW_COUNT cfg).
Proof.
  intros [counts_of H].
  pose proof (H (example_config 3) 3%Z (example_files [] [])) as H1.
  pose proof (H (example_config 7) 6%Z (example_files [] [])) as H2.
  assert (E : verify_and_load (example_config 3) 3 (example_files [] [])
              = verify_and_load (example_config 7) 6 (example_files [] []))
    by reflexivity.
  rewrite E in H1. rewrite H2 in H1; [|discriminate].
  assert (Hne : (3 - 1)%Z <> EXPECTED_ROW_COUNT (example_config 3))
    by discriminate.
  specialize (H1 Hne). discriminate.
Qed.

(** C4, as the code has it. The verification lets a run go on to the
    storage library only when the row count minus one equals the expected
    count. Any other row count, larger or smaller, ends the run: a critical
    entry of fixed text is logged, which holds neither count, and the
    program exits without calling the storage library. For whole runs: what
    reaches the storage library comes from a data file of exactly the
    expected number of lines, and a data file of any other number of lines
    ends the run at the verification, after the artifact was written to
    disk. *)
Theorem row_count_gate (cfg : config) (fs : files) :
  (forall row_count : Z,
      (row_count - 1)%Z = EXPECTED_ROW_COUNT cfg ->
      snd (verify_and_load cfg row_count fs) = Return tt /\
      loaded (fst (verify_and_load cfg row_count fs))
        = [DEST_DATA_FILENAME cfg]) /\
  (forall row_count : Z,
      (row_count - 1)%Z <> EXPECTED_ROW_COUNT cfg ->
      verify_and_load cfg row_count fs
      = ([Log INFO "Running row count verification...";
          Log CRITICAL
            "Row counts between source data and CSV file not matching!"],
         SysExit)) /\
  (loaded (fst (main cfg fs)) <> [] ->
   exists rows : list string,
     fs (SOURCE_DATA cfg) = Some rows /\
     Z.of_nat (List.length rows) = EXPECTED_ROW_COUNT cfg /\
     snd (main cfg fs) = Return tt) /\
  (forall raw names rows : list string,
      fs (SOURCE_COLUMNS cfg) = Some raw -> raw <> [] ->
      prep_cols (map strip raw) = Ok names ->
      fs (SOURCE_DATA cfg) = Some rows -> rows <> [] ->
      Z.of_nat (List.length rows) <> EXPECTED_ROW_COUNT cfg ->
      snd (main cfg fs) = SysExit /\
      loaded (fst (main cfg fs)) = [] /\
      logged CRITICAL (fst (main cfg fs))
        = ["Row counts between source data and CSV file not matching!"] /\
      written (fst (main cfg fs))
        = [join newline (join "," names :: prep_data (map strip rows))]).
Proof.
  split; [|split; [|split]].
  - intros rc Hrc. rewrite (verify_and_load_match cfg rc fs Hrc).
    split; reflexivity.
  - intros rc Hrc. apply verify_and_load_mismatch, Hrc.
  - apply main_loaded_inv.
  - intros raw names rows Hcols Hne Hprep Hdata Hdne Hcount.
    rewrite (main_composed cfg fs _ _ _ Hcols Hne Hprep Hdata Hdne).
    cbn zeta. cbn [fst snd].
    rewrite verify_and_load_mismatch
      by (rewrite composed_row_count; exact Hcount).
    repeat split.
Qed.

Lemma row_count_gate_witness :
  snd (verify_and_load (example_config 2) 3 (example_files [] [])) = Return tt /\
  snd (verify_and_load (example_config 3) 3 (example_files [] [])) = SysExit /\
  snd (main (example_config 3)
         (example_files ["1|name"; "0|id"] ["2|bob"; "1|alice"])) = SysExit /\
  loaded (fst (main (example_config 3)
                 (example_files ["1|name"; "0|id"] ["2|bob"; "1|alice"]))) = [].
Proof.
  split; [|split].
  - apply (proj1 (row_count_gate (example_config 2) (example_files [] []))).
    reflexivity.
  - rewrite (proj1 (proj2 (row_count_gate (example_config 3)
                             (example_files [] []))) 3%Z).
    + reflexivity.
    + discriminate.
  - pose proof (proj2 (proj2 (proj2
        (row_count_gate (example_config 3)
           (example_files ["1|name"; "0|id"] ["2|bob"; "1|alice"]))))
        ["1|name"; "0|id"] ["id"; "name"] ["2|bob"; "1|alice"]) as H.
    destruct H as (Hexit & Hload & _); try reflexivity; try discriminate.
    split; assumption.
Defined.

(** ** Empty inputs *)

(** An empty data file behind a malformed column file: the run ends with
    the exception of the column preparer, not with the warning and exit of
    an empty input, and the data file is never read. *)
Lemma malformed_columns_before_empty_data :
  example_files ["abc|name"] [] (SOURCE_DATA (example_config 2)) = Some [] /\
  snd (main (example_config 2) (example_files ["abc|name"] []))
    = Uncaught ValueError /\
  logged WARNING (fst (main (example_config 2) (example_files ["abc|name"] [])))
    = [] /\
  files_read (fst (main (example_config 2) (example_files ["abc|name"] [])))
    = [SOURCE_COLUMNS (example_config 2)].
Proof. repeat split. Qed.

(** C7, as the code has it. A run whose column file is empty, and a run
    whose column file is prepared without exception and whose data file is
    empty, end with a warning that names the empty file and with the exit
    of the program. In every run in which the column file or the data file
    is empty nothing is written, nothing reaches the storage library and
    the run does not complete. *)
Theorem empty_input_halts (cfg : config) (fs : files) :
  (fs (SOURCE_COLUMNS cfg) = Some [] ->
   snd (main cfg fs) = SysExit /\
   logged WARNING (fst (main cfg fs))
     = [("File, " ++ path_name (SOURCE_COLUMNS cfg) ++ " is empty.")%string]) /\
  (forall raw names : list string,
      fs (SOURCE_COLUMNS cfg) = Some raw -> raw <> [] ->
      prep_cols (map strip raw) = Ok names ->
      fs (SOURCE_DATA cfg) = Some [] ->
      snd (main cfg fs) = SysExit /\
      logged WARNING (fst (main cfg fs))
        = [("File, " ++ path_name (SOURCE_DATA cfg) ++ " is empty.")%string]) /\
  (fs (SOURCE_COLUMNS cfg) = Some [] \/ fs (SOURCE_DATA cfg) = Some [] ->
   written (fst (main cfg fs)) = [] /\
   loaded (fst (main cfg fs)) = [] /\
   snd (main cfg fs) <> Return tt).
Proof.
  split; [|split].
  - intros Hcols. rewrite (main_columns_empty cfg fs Hcols).
    split; reflexivity.
  - intros raw names Hcols Hne Hprep Hdata.
    rewrite (main_data_empty cfg fs raw names Hcols Hne Hprep Hdata).
    split; reflexivity.
  - intros Hempty.
    destruct (fs (SOURCE_COLUMNS cfg)) as [[|c raw]|] eqn:Hcols.
    + rewrite (main_columns_empty cfg fs Hcols).
      repeat split; discriminate.
    + destruct Hempty as [Hempty|Hdata]; [discriminate|].
      destruct (prep_cols (map strip (c :: raw))) as [names|e] eqn:Hprep.
      * rewrite (main_data_empty cfg fs _ _ Hcols (cons_not_nil c raw)
                   Hprep Hdata).
        repeat split; discriminate.
      * rewrite (main_columns_raise cfg fs _ e Hcols (cons_not_nil c raw)
                   Hprep).
        repeat split; discriminate.
    + rewrite (main_columns_missing cfg fs Hcols).
      repeat split; discriminate.
Qed.

Lemma empty_input_halts_witness :
  snd (main (example_config 2) (example_files [] ["2|bob"])) = SysExit /\
  snd (main (example_config 2) (example_files ["0|id"] [])) = SysExit /\
  written (fst (main (example_config 2) (example_files ["0|id"] []))) = [].
Proof.
  split; [|split].
  - apply (proj1 (empty_input_halts (example_config 2)
                    (example_files [] ["2|bob"]))).
    reflexivity.
  - apply (proj1 (proj2 (empty_input_halts (example_config 2)
                           (example_files ["0|id"] [])))
             ["0|id"] ["id"]); try reflexivity; discriminate.
  - apply (proj2 (proj2 (empty_input_halts (example_config 2)
                           (example_files ["0|id"] [])))).
    right. reflexivity.
Defined.

(** ** Determinism *)

(** C9. Two runs that read the same column lines and the same data lines
    and expect the same row count write the same artifact and end the same
    way, whatever the locations of the inputs, the name of the destination
    and the rest of the disk are; the composition of given header and body
    does not depend on the environment either. *)
Theorem pipeline_deterministic (cfg1 cfg2 : config) (fs1 fs2 : files) :
  fs1 (SOURCE_COLUMNS cfg1) = fs2 (SOURCE_COLUMNS cfg2) ->
  fs1 (SOURCE_DATA cfg1) = fs2 (SOURCE_DATA cfg2) ->
  EXPECTED_ROW_COUNT cfg1 = EXPECTED_ROW_COUNT cfg2 ->
  written (fst (main cfg1 fs1)) = written (fst (main cfg2 fs2)) /\
  snd (main cfg1 fs1) = snd (main cfg2 fs2) /\
  (forall data cols : option (list string),
      compose_csv_data data cols fs1 = compose_csv_data data cols fs2).
Proof.
  intros Hc Hd He.
  assert (Hcompose : forall data cols : option (list string),
             compose_csv_data data cols fs1 = compose_csv_data data cols fs2).
  { intros data cols. unfold compose_csv_data.
    destruct (falsy data || falsy cols); reflexivity. }
  enough (Hmain : written (fst (main cfg1 fs1)) = written (fst (main cfg2 fs2))
                  /\ snd (main cfg1 fs1) = snd (main cfg2 fs2)).
  { destruct Hmain as [Hw Ho]. split; [exact Hw|]. split; [exact Ho|].
    exact Hcompose. }
  destruct (fs2 (SOURCE_COLUMNS cfg2)) as [[|c raw]|] eqn:Hcols.
  - (* empty column file *)
    rewrite (main_columns_empty cfg1 fs1 Hc),
            (main_columns_empty cfg2 fs2 Hcols).
    split; reflexivity.
  - pose proof (cons_not_nil c raw) as Hne.
    destruct (prep_cols (map strip (c :: raw))) as [names|e] eqn:Hprep.
    + destruct (fs2 (SOURCE_DATA cfg2)) as [[|r rows]|] eqn:Hdata.
      * (* empty data file *)
        rewrite (main_data_empty cfg1 fs1 _ _ Hc Hne Hprep Hd),
                (main_data_empty cfg2 fs2 _ _ Hcols Hne Hprep Hdata).
        split; reflexivity.
      * (* both files read: the verification decides *)
        pose proof (cons_not_nil r rows) as Hdne.
        rewrite (main_composed cfg1 fs1 _ _ _ Hc Hne Hprep Hd Hdne),
                (main_composed cfg2 fs2 _ _ _ Hcols Hne Hprep Hdata Hdne).
        cbn zeta. cbn [fst snd].
        destruct (Z.eq_dec
                    (Z.of_nat (List.length
                       (join "," names :: prep_data (map strip (r :: rows))))
                     - 1)
                    (EXPECTED_ROW_COUNT cfg1)) as [Heq|Hneq].
        -- rewrite (verify_and_load_match cfg1 _ fs1 Heq).
           rewrite He in Heq.
           rewrite (verify_and_load_match cfg2 _ fs2 Heq).
           split; reflexivity.
        -- rewrite (verify_and_load_mismatch cfg1 _ fs1 Hneq).
           rewrite He in Hneq.
           rewrite (verify_and_load_mismatch cfg2 _ fs2 Hneq).
           split; reflexivity.
      * (* no data file *)
        rewrite (main_data_missing cfg1 fs1 _ _ Hc Hne Hprep Hd),
                (main_data_missing cfg2 fs2 _ _ Hcols Hne Hprep Hdata).
        split; reflexivity.
    + (* the column preparer raises *)
      rewrite (main_columns_raise cfg1 fs1 _ e Hc Hne Hprep),
              (main_columns_raise cfg2 fs2 _ e Hcols Hne Hprep).
      split; reflexivity.
  - (* no column file *)
    rewrite (main_columns_missing cfg1 fs1 Hc),
            (main_columns_missing cfg2 fs2 Hcols).
    split; reflexivity.
Qed.

Lemma pipeline_deterministic_witness :
  written (fst (main (example_config 2)
                  (example_files ["1|name"; "0|id"] ["2|bob"; "1|alice"])))
  = written (fst (main (other_config 2)
                    (other_files ["1|name"; "0|id"] ["2|bob"; "1|alice"]))) /\
  snd (main (example_config 2)
         (example_files ["1|name"; "0|id"] ["2|bob"; "1|alice"]))
  = snd (main (other_config 2)
           (other_files ["1|name"; "0|id"] ["2|bob"; "1|alice"])) /\
  (forall data cols : option (list string),
      compose_csv_data data cols
        (example_files ["1|name"; "0|id"] ["2|bob"; "1|alice"])
      = compose_csv_data data cols
          (other_files ["1|name"; "0|id"] ["2|bob"; "1|alice"])).
Proof.
  apply (pipeline_deterministic (example_config 2) (other_config 2)
           (example_files ["1|name"; "0|id"] ["2|bob"; "1|alice"])
           (other_files ["1|name"; "0|id"] ["2|bob"; "1|alice"]));
    reflexivity.
Defined.

(** ** The scenario of the design document *)

(** C1. With the column lines [1|name] and [0|id], the data lines [2|bob]
    and [1|alice] and an expected count of 2 data rows: the prepared columns
    are [id] and [name], the transformed rows [2,bob] and [1,alice], the
    composition has the three lines [id,name], [2,bob], [1,alice] and a row
    count of 3, the verification passes, and the run writes these lines and
    hands the file to the storage library. *)
Theorem scenario_two_rows :
  prep_cols ["1|name"; "0|id"] = Ok ["id"; "name"] /\
  prep_data ["2|bob"; "1|alice"] = ["2,bob"; "1,alice"] /\
  compose_csv_data (Some ["2,bob"; "1,alice"]) (Some [join "," ["id"; "name"]])
      (example_files ["1|name"; "0|id"] ["2|bob"; "1|alice"])
    = ([], Return (Some {| data := ["id,name"; "2,bob"; "1,alice"];
                           row_count := 3 |})) /\
  (3 - 1)%Z = EXPECTED_ROW_COUNT (example_config 2) /\
  snd (verify_and_load (example_config 2) 3
         (example_files ["1|name"; "0|id"] ["2|bob"; "1|alice"])) = Return tt /\
  written (fst (main (example_config 2)
                  (example_files ["1|name"; "0|id"] ["2|bob"; "1|alice"])))
    = [join newline ["id,name"; "2,bob"; "1,alice"]] /\
  loaded (fst (main (example_config 2)
                 (example_files ["1|name"; "0|id"] ["2|bob"; "1|alice"])))
    = [DEST_DATA_FILENAME (example_config 2)] /\
  snd (main (example_config 2)
         (example_files ["1|name"; "0|id"] ["2|bob"; "1|alice"])) = Return tt.
Proof. repeat split. Qed.

(** * Further properties of the code *)

(** ** More on exceptions and sorting *)

Lemma rmap_ok_inv {A B : Type} (f : A -> result B) (l : list A)
    (ys : list B) :
  rmap f l = Ok ys ->
  Forall (fun x => exists y, f x = Ok y) l /\ List.length ys = List.length l.
Proof.
  revert ys. induction l as [|x t IH]; simpl; intros ys H.
  - injection H as <-. split; [constructor | reflexivity].
  - destruct (f x) as [y|e] eqn:Ex; simpl in H; [|discriminate].
    destruct (rmap f t) as [ys'|e] eqn:Et; simpl in H; [|discriminate].
    injection H as <-.
    destruct (IH ys' eq_refl) as [Hall Hlen].
    split.
    + constructor; [exists y; exact Ex | exact Hall].
    + simpl. rewrite Hlen. reflexivity.
Qed.

Lemma rmap_first_raise {A B : Type} (f : A -> result B) (x : A)
    (t : list A) (e : exn) :
  f x = Raise e -> rmap f (x :: t) = Raise e.
Proof. intros H. simpl. rewrite H. reflexivity. Qed.

(** A key function that raised on no element is total on the list. *)
Lemma sorted_ok_inv {A : Type} (key : A -> result Z) (data l : list A) :
  sorted key data = Ok l ->
  Forall (fun x => exists z, key x = Ok z) data.
Proof.
  unfold sorted. intros H.
  destruct (rmap (fun x => rbind (key x) (fun k => Ok (k, x))) data)
    as [keyed|e] eqn:E; [|discriminate].
  destruct (rmap_ok_inv _ _ _ E) as [Hall _].
  eapply Forall_impl; [|exact Hall].
  intros x [y Hy]. simpl in Hy.
  destruct (key x) as [z|e']; [exists z; reflexivity | discriminate].
Qed.

Lemma key_of_ok (key_index : option Z) (data : list string) :
  Forall (fun x => exists z, sort_key key_index x = Ok z) data ->
  Forall (fun x => sort_key key_index x = Ok (key_of key_index x)) data.
Proof.
  intros H. eapply Forall_impl; [|exact H].
  intros x [z Hz]. simpl. unfold key_of. rewrite Hz. reflexivity.
Qed.

(** Whenever [sort_by] returns, it returns the stable sort on the keys. *)
Lemma sort_by_ok_inv (data : list string) (key_index : option Z)
    (l : list string) :
  sort_by data key_index = Ok l ->
  Forall (fun x => sort_key key_index x = Ok (key_of key_index x)) data /\
  l = isort (key_of key_index) data.
Proof.
  intros H. unfold sort_by in H.
  pose proof (key_of_ok _ _ (sorted_ok_inv _ _ _ H)) as Hkeys.
  split; [exact Hkeys|].
  rewrite (sorted_total (key_of key_index) _ data Hkeys) in H.
  injection H as <-. reflexivity.
Qed.

Section MoreSortFacts.
Context {A : Type}.
Variable k : A -> Z.

(** A list in key order is its own stable sort. *)
Lemma isort_sorted_id (l : list A) : key_sorted k l -> isort k l = l.
Proof.
  intros H. apply (stable_sort_unique k).
  - apply isort_sorted.
  - exact H.
  - intros z. apply isort_with_key.
Qed.

Lemma with_key_perm (z : Z) (l l' : list A) :
  Permutation l l' -> Permutation (with_key k z l) (with_key k z l').
Proof.
  unfold with_key.
  induction 1 as [|x l l' _ IH|x y l|l l' l'' _ IH1 _ IH2]; simpl.
  - constructor.
  - destruct (k x =? z)%Z; [apply perm_skip|]; exact IH.
  - destruct (k x =? z)%Z, (k y =? z)%Z;
      try apply Permutation_refl. apply perm_swap.
  - eapply perm_trans; eassumption.
Qed.

Lemma with_key_unique (z : Z) (l : list A) :
  NoDup (map k l) -> List.length (with_key k z l) <= 1.
Proof.
  unfold with_key.
  induction l as [|x t IH]; simpl; intros Hnd.
  - lia.
  - inversion Hnd as [|? ? Hnotin Hnd']; subst.
    destruct (k x =? z)%Z eqn:E.
    + apply Z.eqb_eq in E.
      assert (Hnone : filter (fun a => (k a =? z)%Z) t = []).
      { destruct (filter (fun a => (k a =? z)%Z) t) as [|y r] eqn:Ef;
          [reflexivity|].
        exfalso. apply Hnotin.
        assert (Hin : In y (filter (fun a => (k a =? z)%Z) t))
          by (rewrite Ef; left; reflexivity).
        apply filter_In in Hin. destruct Hin as [Hin Hy].
        apply Z.eqb_eq in Hy. rewrite E, <- Hy.
        apply in_map, Hin. }
      rewrite Hnone. simpl. lia.
    + apply IH, Hnd'.
Qed.

Lemma perm_short (l l' : list A) :
  Permutation l l' -> List.length l <= 1 -> l = l'.
Proof.
  intros Hp Hlen.
  destruct l as [|a [|b r]]; simpl in Hlen; try lia.
  - apply Permutation_nil in Hp. symmetry; exact Hp.
  - pose proof (Permutation_length Hp) as Hl.
    destruct l' as [|a' [|b' r']]; try discriminate.
    apply Permutation_length_1 in Hp. subst; reflexivity.
Qed.

(** With pairwise distinct keys the stable sort does not depend on the
    order of the input. *)
Lemma isort_perm_invariant (l l' : list A) :
  Permutation l l' -> NoDup (map k l) -> isort k l = isort k l'.
Proof.
  intros Hp Hnd. apply (stable_sort_unique k).
  - apply isort_sorted.
  - apply isort_sorted.
  - intros z. rewrite !isort_with_key.
    apply perm_short.
    + apply with_key_perm, Hp.
    + apply with_key_unique, Hnd.
Qed.
End MoreSortFacts.

(** ** [sort_by] *)

(** X1. Whatever index [sort_by] sorts on, negative ones included: when it
    returns, the result is a rearrangement of the input lines that is
    non-decreasing in the key and keeps the lines of any one key in their
    input order, and the key function raised on no line. *)
Theorem sort_by_stable_permutation (data : list string) (key_index : Z)
    (l : list string) :
  sort_by data (Some key_index) = Ok l ->
  Permutation l data /\
  key_sorted (key_of (Some key_index)) l /\
  (forall z : Z,
      with_key (key_of (Some key_index)) z l
      = with_key (key_of (Some key_index)) z data) /\
  Forall (fun x => sort_key (Some key_index) x
                   = Ok (key_of (Some key_index) x)) data.
Proof.
  intros H.
  destruct (sort_by_ok_inv _ _ _ H) as [Hkeys ->].
  split; [apply isort_perm|].
  split; [apply isort_sorted|].
  split; [intros z; apply isort_with_key | exact Hkeys].
Qed.

Lemma sort_by_stable_permutation_witness :
  Permutation ["x|3"; "y|1"; "z|3"; "w|2"] ["y|1"; "w|2"; "x|3"; "z|3"] /\
  key_sorted (key_of (Some (-1)%Z)) ["y|1"; "w|2"; "x|3"; "z|3"] /\
  (forall z : Z,
      with_key (key_of (Some (-1)%Z)) z ["y|1"; "w|2"; "x|3"; "z|3"]
      = with_key (key_of (Some (-1)%Z)) z ["x|3"; "y|1"; "z|3"; "w|2"]) /\
  Forall (fun x => sort_key (Some (-1)%Z) x = Ok (key_of (Some (-1)%Z) x))
    ["x|3"; "y|1"; "z|3"; "w|2"].
Proof.
  pose proof (sort_by_stable_permutation ["x|3"; "y|1"; "z|3"; "w|2"]
                (-1)%Z ["y|1"; "w|2"; "x|3"; "z|3"] eq_refl)
    as (Hp & Hs & Hk & Ha).
  split; [apply Permutation_sym, Hp|].
  split; [exact Hs|]. split; [exact Hk | exact Ha].
Defined.

(** X2. Input that is already in key order comes back unchanged; so
    sorting the result of [sort_by] once more changes nothing. *)
Theorem sort_by_idempotent (data : list string) (key_index : option Z)
    (l : list string) :
  sort_by data key_index = Ok l ->
  sort_by l key_index = Ok l /\
  (key_sorted (key_of key_index) data -> l = data).
Proof.
  intros H.
  destruct (sort_by_ok_inv _ _ _ H) as [Hkeys ->].
  split.
  - unfold sort_by.
    rewrite (sorted_total (key_of key_index)).
    + rewrite isort_sorted_id; [reflexivity | apply isort_sorted].
    + apply (Permutation_Forall
               (Permutation_sym (isort_perm (key_of key_index) data))).
      exact Hkeys.
  - apply isort_sorted_id.
Qed.

Lemma sort_by_idempotent_witness :
  sort_by ["0|id"; "1|name"; "1|alias"] (Some 0%Z)
    = Ok ["0|id"; "1|name"; "1|alias"] /\
  ["0|id"; "1|name"; "1|alias"] = ["0|id"; "1|name"; "1|alias"].
Proof.
  destruct (sort_by_idempotent ["0|id"; "1|name"; "1|alias"] (Some 0%Z)
              ["0|id"; "1|name"; "1|alias"] eq_refl) as [Hs Hid].
  split; [exact Hs|].
  apply Hid.
  repeat constructor; vm_compute; discriminate.
Defined.

(** X3. Called without [key_index], [sort_by] sorts on [None]: it raises
    [TypeError] on every input that is not empty. *)
Theorem sort_by_default_key (data : list string) :
  data <> [] -> sort_by data None = Raise TypeError.
Proof.
  intros Hne. destruct data as [|x t]; [contradiction|].
  unfold sort_by, sorted.
  rewrite (rmap_first_raise _ x t TypeError); reflexivity.
Qed.

Lemma sort_by_default_key_witness :
  sort_by ["1|name"; "0|id"] None = Raise TypeError.
Proof.
  apply (sort_by_default_key ["1|name"; "0|id"]). discriminate.
Defined.

(** X4. An index that some line has no segment for makes [sort_by] raise
    [IndexError], provided the lines in front of that line have an integer
    at the index. *)
Theorem sort_by_index_out_of_range (front back : list string)
    (line : string) (key_index : Z) :
  Forall (fun x => exists z, sort_key (Some key_index) x = Ok z) front ->
  (Z.of_nat (S (count_char pipe line)) <= key_index \/
   key_index < - Z.of_nat (S (count_char pipe line)))%Z ->
  sort_by (front ++ line :: back) (Some key_index) = Raise IndexError.
Proof.
  intros Hfront Hrange.
  assert (Hline : sort_key (Some key_index) line = Raise IndexError).
  { unfold sort_key, py_index. rewrite split_length.
    destruct (key_index <? 0)%Z eqn:Eneg.
    - apply Z.ltb_lt in Eneg.
      destruct ((key_index + Z.of_nat (S (count_char pipe line)) <? 0)%Z
                || (Z.of_nat (S (count_char pipe line))
                    <=? key_index + Z.of_nat (S (count_char pipe line)))%Z)
        eqn:E; [reflexivity|].
      apply orb_false_elim in E. destruct E as [E1 E2].
      apply Z.ltb_ge in E1. apply Z.leb_gt in E2. lia.
    - apply Z.ltb_ge in Eneg.
      destruct ((key_index <? 0)%Z
                || (Z.of_nat (S (count_char pipe line)) <=? key_index)%Z)
        eqn:E; [reflexivity|].
      apply orb_false_elim in E. destruct E as [_ E2].
      apply Z.leb_gt in E2. lia. }
  unfold sort_by, sorted.
  assert (Hr : rmap (fun x => rbind (sort_key (Some key_index) x)
                                (fun k => Ok (k, x)))
                 (front ++ line :: back) = Raise IndexError).
  { induction Hfront as [|x t [z Hz] _ IH].
    - cbn [app]. apply rmap_first_raise. rewrite Hline. reflexivity.
    - cbn [app rmap]. rewrite Hz. cbn [rbind]. rewrite IH. reflexivity. }
  rewrite Hr. reflexivity.
Qed.

Lemma sort_by_index_out_of_range_witness :
  sort_by (["1|a|7"] ++ "2|b" :: ["x"]) (Some 2%Z) = Raise IndexError.
Proof.
  apply (sort_by_index_out_of_range ["1|a|7"] ["x"] "2|b" 2%Z).
  - repeat constructor. exists 7%Z. reflexivity.
  - left. simpl. lia.
Defined.

(** ** More on splitting *)

(** No piece of a split contains the separator. *)
Lemma split_pieces_no_sep (c : ascii) (s : string) :
  Forall (fun f => count_char c f = 0) (split c s).
Proof.
  induction s as [|a s' IH]; simpl.
  - repeat constructor.
  - destruct (Ascii.eqb a c) eqn:E.
    + constructor; [reflexivity | exact IH].
    + destruct (split c s') as [|f fs]; [repeat constructor; simpl; rewrite E; reflexivity|].
      inversion IH as [|? ? Hf Hfs]; subst.
      constructor; [|exact Hfs].
      simpl. rewrite E, Hf. reflexivity.
Qed.

(** A character absent from a string is absent from the pieces of any
    split of it. *)
Lemma split_pieces_without (c d : ascii) (s : string) :
  count_char d s = 0 -> Forall (fun f => count_char d f = 0) (split c s).
Proof.
  induction s as [|a s' IH]; simpl; intros H.
  - repeat constructor.
  - destruct (Ascii.eqb a d) eqn:Ed; [discriminate|]. simpl in H.
    specialize (IH H).
    destruct (Ascii.eqb a c).
    + constructor; [reflexivity | exact IH].
    + destruct (split c s') as [|f fs];
        [repeat constructor; simpl; rewrite Ed; reflexivity|].
      inversion IH as [|? ? Hf Hfs]; subst.
      constructor; [|exact Hfs].
      simpl. rewrite Ed, Hf. reflexivity.
Qed.

Lemma split_without_sep (c : ascii) (s : string) :
  count_char c s = 0 -> split c s = [s].
Proof.
  induction s as [|a s' IH]; simpl; intros H.
  - reflexivity.
  - destruct (Ascii.eqb a c); [discriminate|].
    rewrite (IH H). reflexivity.
Qed.

Lemma split_app_sep (c : ascii) (f r : string) :
  count_char c f = 0 ->
  split c (f ++ String c r) = f :: split c r.
Proof.
  induction f as [|a f' IH]; simpl; intros H.
  - rewrite Ascii.eqb_refl. reflexivity.
  - destruct (Ascii.eqb a c); [discriminate|].
    rewrite (IH H). reflexivity.
Qed.

(** Joining on a character that occurs in no element and splitting on it
    again gives the elements back. *)
Lemma split_join (c : ascii) (l : list string) :
  l <> [] -> Forall (fun f => count_char c f = 0) l ->
  split c (join (String c EmptyString) l) = l.
Proof.
  induction l as [|x t IH]; intros Hne Hall; [contradiction|].
  inversion Hall as [|? ? Hx Ht]; subst.
  destruct t as [|y t'].
  - simpl. apply split_without_sep, Hx.
  - change (join (String c EmptyString) (x :: y :: t'))
      with (x ++ String c (join (String c EmptyString) (y :: t')))%string.
    rewrite (split_app_sep c x _ Hx), IH; [reflexivity|discriminate|exact Ht].
Qed.

Lemma count_char_app (c : ascii) (s1 s2 : string) :
  count_char c (s1 ++ s2) = count_char c s1 + count_char c s2.
Proof.
  induction s1 as [|a s1' IH]; simpl.
  - reflexivity.
  - rewrite IH. lia.
Qed.

(** A join contains a character as often as separator and elements do
    together; in particular not at all when neither does. *)
Lemma count_char_join_zero (c : ascii) (sep : string) (l : list string) :
  count_char c sep = 0 -> Forall (fun f => count_char c f = 0) l ->
  count_char c (join sep l) = 0.
Proof.
  intros Hsep. induction 1 as [|x t Hx Ht IH].
  - reflexivity.
  - destruct t as [|y t'].
    + exact Hx.
    + change (join sep (x :: y :: t'))
        with (x ++ sep ++ join sep (y :: t'))%string.
      rewrite !count_char_app, Hx, Hsep, IH. reflexivity.
Qed.

Lemma replace_char_absent (c d : ascii) (s : string) :
  count_char c s = 0 -> replace_char c d s = s.
Proof.
  induction s as [|a s' IH]; simpl; intros H.
  - reflexivity.
  - destruct (Ascii.eqb a c); [discriminate|].
    rewrite (IH H). reflexivity.
Qed.

Lemma replace_char_removes (c d : ascii) (s : string) :
  c <> d -> count_char c (replace_char c d s) = 0.
Proof.
  intros Hcd. induction s as [|a s' IH]; simpl.
  - reflexivity.
  - rewrite IH. destruct (Ascii.eqb a c) eqn:E.
    + destruct (Ascii.eqb d c) eqn:E'; [|reflexivity].
      apply Ascii.eqb_eq in E'. congruence.
    + rewrite E. reflexivity.
Qed.

Lemma replace_char_keeps (c d e : ascii) (s : string) :
  e <> d -> count_char e s = 0 -> count_char e (replace_char c d s) = 0.
Proof.
  intros Hed. induction s as [|a s' IH]; simpl; intros H.
  - reflexivity.
  - destruct (Ascii.eqb a e) eqn:Ea; [discriminate|]. simpl in H.
    rewrite (IH H).
    destruct (Ascii.eqb a c); [|rewrite Ea; reflexivity].
    destruct (Ascii.eqb d e) eqn:E'; [|reflexivity].
    apply Ascii.eqb_eq in E'. congruence.
Qed.

Lemma py_index_In {A : Type} (l : list A) (i : Z) (x : A) :
  py_index l i = Ok x -> In x l.
Proof.
  unfold py_index. intros H.
  destruct ((_ <? 0)%Z || _); [discriminate|].
  destruct (nth_error l _) as [y|] eqn:E; [|discriminate].
  injection H as <-. eapply nth_error_In, E.
Qed.

(** ** [prep_cols] *)

(** Whenever [prep_cols] returns, every line was accepted. *)
Lemma prep_cols_ok_inv (cols names : list string) :
  prep_cols cols = Ok names ->
  Forall (fun l => accepted_column l = true) cols.
Proof.
  unfold prep_cols. intros H.
  destruct (sort_by cols (Some 0%Z)) as [l|e] eqn:Es; [|discriminate].
  cbn [rbind] in H.
  destruct (sort_by_ok_inv _ _ _ Es) as [Hkeys ->].
  destruct (rmap_ok_inv _ _ _ H) as [Hnames _].
  apply (Permutation_Forall (isort_perm (key_of (Some 0%Z)) cols)) in Hnames.
  rewrite Forall_forall in Hkeys, Hnames |- *.
  intros l Hin.
  specialize (Hkeys l Hin). destruct (Hnames l Hin) as [n Hn].
  rewrite sort_key_first in Hkeys. unfold int, first_segment in Hkeys.
  unfold accepted_column.
  destruct (split pipe l) as [|o [|n' rest]]; try discriminate.
  simpl in Hkeys.
  destruct (py_int o); [reflexivity | discriminate].
Qed.

(** X5. [prep_cols] returns exactly when every line has at least one
    delimiter and an integer literal in front of the first one; it then
    returns one name per line, an empty list for no lines. *)
Theorem prep_cols_succeeds_iff (cols : list string) :
  ((exists names, prep_cols cols = Ok names) <->
   Forall (fun l => accepted_column l = true) cols) /\
  (forall names, prep_cols cols = Ok names ->
                 List.length names = List.length cols).
Proof.
  split; [split|].
  - intros [names H]. apply (prep_cols_ok_inv cols names H).
  - intros H. eexists. apply prep_cols_accepted, H.
  - intros names H.
    rewrite (prep_cols_accepted cols (prep_cols_ok_inv cols names H)) in H.
    injection H as <-.
    rewrite length_map. apply Permutation_length, isort_perm.
Qed.

Lemma prep_cols_succeeds_iff_witness :
  List.length ["id"; "name"] = List.length ["1|name"; "0|id"].
Proof.
  apply (proj2 (prep_cols_succeeds_iff ["1|name"; "0|id"]) ["id"; "name"]).
  reflexivity.
Defined.

(** X6. Every name [prep_cols] returns is the second segment of one of
    the lines it was given, and contains no pipe. *)
Theorem prep_cols_names (cols names : list string) :
  prep_cols cols = Ok names ->
  Forall (fun n => count_char pipe n = 0 /\
                   exists l, In l cols /\ nth_error (split pipe l) 1 = Some n)
    names.
Proof.
  intros H.
  pose proof (prep_cols_ok_inv cols names H) as Hacc.
  rewrite (prep_cols_accepted cols Hacc) in H. injection H as <-.
  apply Forall_forall. intros n Hin.
  apply in_map_iff in Hin. destruct Hin as (l & <- & Hl).
  apply (Permutation_in _ (isort_perm ordinal cols)) in Hl.
  rewrite Forall_forall in Hacc.
  destruct (accepted_column_inv l (Hacc l Hl))
    as (o & n & rest & z & E & _ & _ & _ & _ & Hn).
  split.
  - pose proof (split_pieces_no_sep pipe l) as Hp.
    rewrite E in Hp. rewrite Hn.
    inversion Hp as [|? ? _ Hp']; subst.
    inversion Hp' as [|? ? Hn0 _]; subst. exact Hn0.
  - exists l. split; [exact Hl|]. rewrite E, Hn. reflexivity.
Qed.

Lemma prep_cols_names_witness :
  Forall (fun n => count_char pipe n = 0 /\
                   exists l, In l ["1|first name|x"; "0|id"] /\
                             nth_error (split pipe l) 1 = Some n)
    ["id"; "first name"].
Proof.
  apply (prep_cols_names ["1|first name|x"; "0|id"] ["id"; "first name"]).
  reflexivity.
Defined.

(** X7. When the ordinals of the accepted lines are pairwise distinct, the
    order of the lines in the column file does not matter: every
    rearrangement of the lines gives the same names in the same order. *)
Theorem prep_cols_order_independent (cols cols' : list string) :
  Forall (fun l => accepted_column l = true) cols ->
  NoDup (map ordinal cols) ->
  Permutation cols cols' ->
  prep_cols cols' = prep_cols cols.
Proof.
  intros Hacc Hnd Hp.
  rewrite (prep_cols_accepted cols Hacc).
  rewrite (prep_cols_accepted cols' (Permutation_Forall Hp Hacc)).
  rewrite (isort_perm_invariant ordinal cols cols' Hp Hnd).
  reflexivity.
Qed.

Lemma prep_cols_order_independent_witness :
  prep_cols ["0|id"; "2|city"; "1|name"] = prep_cols ["2|city"; "1|name"; "0|id"].
Proof.
  apply (prep_cols_order_independent
           ["2|city"; "1|name"; "0|id"] ["0|id"; "2|city"; "1|name"]).
  - repeat constructor.
  - repeat constructor; vm_compute; intuition discriminate.
  - apply Permutation_sym.
    apply (Permutation_cons_app ["2|city"; "1|name"] [] "0|id").
    apply Permutation_refl.
Defined.

(** ** [prep_data] *)

Lemma prep_data_rows_no_pipe (data : list string) :
  Forall (fun out => count_char pipe out = 0) (prep_data data).
Proof.
  unfold prep_data.
  apply Forall_forall. intros out Hin.
  apply in_map_iff in Hin. destruct Hin as (row & <- & _).
  rewrite prep_data_row. apply replace_char_removes. discriminate.
Qed.

(** X8. No pipe is left in a transformed row, and the commas of a
    transformed row are as many as the pipes and the commas of the
    original row together. *)
Theorem prep_data_no_pipe (data : list string) :
  Forall (fun out => count_char pipe out = 0) (prep_data data) /\
  map (count_char comma) (prep_data data)
  = map (fun row => count_char pipe row + count_char comma row) data.
Proof.
  split.
  - apply prep_data_rows_no_pipe.
  - unfold prep_data. rewrite map_map. apply map_ext. intros row.
    rewrite prep_data_row. apply count_replace_char. discriminate.
Qed.

(** X9. Transforming twice is transforming once, and rows without a pipe
    are left as they are. *)
Theorem prep_data_idempotent (data : list string) :
  prep_data (prep_data data) = prep_data data /\
  (Forall (fun row => count_char pipe row = 0) data -> prep_data data = data).
Proof.
  assert (Hid : forall d, Forall (fun row => count_char pipe row = 0) d ->
                          prep_data d = d).
  { intros d Hd. unfold prep_data.
    rewrite <- (map_id d) at 2.
    apply map_ext_in. intros row Hin.
    rewrite Forall_forall in Hd.
    rewrite prep_data_row. apply replace_char_absent, Hd, Hin. }
  split.
  - apply Hid, prep_data_rows_no_pipe.
  - apply Hid.
Qed.

Lemma prep_data_idempotent_witness :
  prep_data ["2,bob"; "alice"] = ["2,bob"; "alice"].
Proof.
  apply (proj2 (prep_data_idempotent ["2,bob"; "alice"])).
  repeat constructor.
Defined.

(** ** [strip] *)

Lemma drop_while_head (p : ascii -> bool) (l : list ascii) :
  match drop_while p l with
  | [] => True
  | c :: _ => p c = false
  end.
Proof.
  induction l as [|a t IH]; simpl.
  - exact I.
  - destruct (p a) eqn:E; [exact IH | exact E].
Qed.

Lemma drop_while_suffix (p : ascii -> bool) (l : list ascii) :
  exists pre, l = pre ++ drop_while p l.
Proof.
  induction l as [|a t [pre IH]]; simpl.
  - exists []. reflexivity.
  - destruct (p a).
    + exists (a :: pre). simpl. rewrite <- IH. reflexivity.
    + exists []. reflexivity.
Qed.

Lemma drop_while_id (l : list ascii) :
  starts_with_space l = false -> drop_while is_unicode_space l = l.
Proof.
  destruct l as [|a t]; simpl; intros H.
  - reflexivity.
  - rewrite H. reflexivity.
Qed.

Lemma starts_with_space_drop (l : list ascii) :
  starts_with_space (drop_while is_unicode_space l) = false.
Proof.
  pose proof (drop_while_head is_unicode_space l) as H.
  destruct (drop_while is_unicode_space l); [reflexivity | exact H].
Qed.

(** The characters of [strip s]: no white space in front, none at the
    end. *)
Lemma strip_chars (s : string) :
  starts_with_space (list_ascii_of_string (strip s)) = false /\
  starts_with_space (rev (list_ascii_of_string (strip s))) = false.
Proof.
  unfold strip. rewrite list_ascii_of_string_of_list_ascii.
  set (front := drop_while is_unicode_space (list_ascii_of_string s)).
  split.
  - destruct (drop_while_suffix is_unicode_space (rev front)) as [pre Hpre].
    assert (Hfront : front
                     = rev (drop_while is_unicode_space (rev front)) ++ rev pre).
    { rewrite <- rev_app_distr, <- Hpre, rev_involutive. reflexivity. }
    pose proof (starts_with_space_drop (list_ascii_of_string s)) as Hhead.
    fold front in Hhead.
    destruct (rev (drop_while is_unicode_space (rev front))) as [|a r];
      [reflexivity|].
    rewrite Hfront in Hhead. exact Hhead.
  - rewrite rev_involutive. apply starts_with_space_drop.
Qed.

Lemma strip_stripped (s : string) : stripped (strip s) = true.
Proof.
  unfold stripped. destruct (strip_chars s) as [H1 H2].
  rewrite H1, H2. reflexivity.
Qed.

Lemma stripped_strip_id (s : string) : stripped s = true -> strip s = s.
Proof.
  unfold stripped, strip. intros H.
  apply andb_true_iff in H. destruct H as [H1 H2].
  apply negb_true_iff in H1, H2.
  rewrite (drop_while_id _ H1), (drop_while_id _ H2), rev_involutive.
  apply string_of_list_ascii_of_string.
Qed.

(** ** [read_file] and its decorator *)

Lemma falsy_some_false {A : Type} (l : list A) :
  falsy (Some l) = false -> l <> [].
Proof. destruct l; [discriminate | discriminate]. Qed.

(** On calls with both keywords and a [Path] or [None] as path, [wrapper]
    is [log_read_file]. *)
Lemma wrapper_keywords (read_file_func : Path -> bool -> M (list string))
    (path : option Path) (strip_whitespace : bool) :
  wrapper read_file_func (keywords path strip_whitespace)
  = log_read_file read_file_func path strip_whitespace.
Proof. destruct path; reflexivity. Qed.

(** X10. Whatever function [log_read_file] decorates, the function it
    returns behaves as follows. Without the keyword [path] or without the
    keyword [strip_whitespace] it raises [KeyError] before it logs
    anything. For a path that is no [Path] it logs the attempt with the
    argument as given and an error, and returns [None] without calling the
    decorated function. For a [Path] it calls the function: an empty list
    from it becomes [None] after a warning, a list that is not empty is
    returned as it is, and an exception or an exit of the function goes
    through. So it never returns an empty list. *)
Theorem wrapper_results (read_file_func : Path -> bool -> M (list string))
    (kw : kwargs) (fs : files) :
  (kw_path kw = None \/ kw_strip_whitespace kw = None ->
   wrapper read_file_func kw fs = ([], Uncaught KeyError)) /\
  (forall (text : string) (flag : bool),
      kw_path kw = Some (NoPath text) -> kw_strip_whitespace kw = Some flag ->
      wrapper read_file_func kw fs
      = ([Log INFO ("Attempting to read file " ++ text);
          Log ERROR "Invalid path. Provide a valid Path object."],
         Return None)) /\
  (forall (p : Path) (flag : bool) (t : list event),
      kw_path kw = Some (IsPath p) -> kw_strip_whitespace kw = Some flag ->
      read_file_func p flag fs = (t, Return []) ->
      wrapper read_file_func kw fs
      = (Log INFO ("Attempting to read file " ++ path_name p) :: t ++
         [Log WARNING ("File, " ++ path_name p ++ " is empty.")],
         Return None)) /\
  (forall (p : Path) (flag : bool) (t : list event) (lines : list string),
      kw_path kw = Some (IsPath p) -> kw_strip_whitespace kw = Some flag ->
      read_file_func p flag fs = (t, Return lines) -> lines <> [] ->
      wrapper read_file_func kw fs
      = (Log INFO ("Attempting to read file " ++ path_name p) :: t ++
         [Log INFO ("Successfully read file " ++ path_name p)],
         Return (Some lines))) /\
  (forall (p : Path) (flag : bool) (t : list event),
      kw_path kw = Some (IsPath p) -> kw_strip_whitespace kw = Some flag ->
      (forall e : exn,
          read_file_func p flag fs = (t, Uncaught e) ->
          wrapper read_file_func kw fs
          = (Log INFO ("Attempting to read file " ++ path_name p) :: t,
             Uncaught e)) /\
      (read_file_func p flag fs = (t, SysExit) ->
       wrapper read_file_func kw fs
       = (Log INFO ("Attempting to read file " ++ path_name p) :: t,
          SysExit))) /\
  (forall (t : list event) (lines : list string),
      wrapper read_file_func kw fs = (t, Return (Some lines)) ->
      lines <> [] /\
      exists (p : Path) (flag : bool) (t' : list event),
        kw_path kw = Some (IsPath p) /\ kw_strip_whitespace kw = Some flag /\
        read_file_func p flag fs = (t', Return lines)).
Proof.
  destruct kw as [kpath kflag]; unfold wrapper;
    cbn [kw_path kw_strip_whitespace].
  split; [|split; [|split; [|split; [|split]]]].
  - intros [-> | ->]; [reflexivity|].
    destruct kpath; reflexivity.
  - intros text flag -> ->. reflexivity.
  - intros p flag t -> -> Hr.
    unfold bind. cbn [log emit show_arg]. rewrite Hr. reflexivity.
  - intros p flag t lines -> -> Hr Hne.
    unfold bind. cbn [log emit show_arg]. rewrite Hr.
    destruct lines as [|l ls]; [contradiction | reflexivity].
  - intros p flag t -> ->.
    split; [intros e Hr | intros Hr];
      unfold bind; cbn [log emit show_arg]; rewrite Hr; reflexivity.
  - intros t lines H.
    destruct kpath as [[p|text]|]; [| |discriminate];
      (destruct kflag as [flag|]; [|discriminate]); [|discriminate].
    unfold bind in H. cbn [log emit] in H.
    destruct (read_file_func p flag fs) as [t' [l| |e]] eqn:Er;
      try discriminate.
    destruct (falsy (Some l)) eqn:Ef; [discriminate|].
    cbn in H. injection H as _ <-.
    split; [apply falsy_some_false, Ef|].
    exists p, flag, t'. repeat split. exact Er.
Qed.

Lemma wrapper_results_witness :
  wrapper read_file_body
    {| kw_path := Some (IsPath (SOURCE_COLUMNS (example_config 2)));
       kw_strip_whitespace := Some true |}
    (example_files [] ["7"])
  = (Log INFO ("Attempting to read file "
               ++ path_name (SOURCE_COLUMNS (example_config 2)))
       :: [ReadFile (SOURCE_COLUMNS (example_config 2))] ++
     [Log WARNING ("File, " ++ path_name (SOURCE_COLUMNS (example_config 2))
                   ++ " is empty.")],
     Return None) /\
  wrapper read_file_body
    {| kw_path := Some (NoPath "data/source"); kw_strip_whitespace := None |}
    (example_files [] ["7"])
  = ([], Uncaught KeyError) /\
  (["0|id"] <> [] /\
   exists (p : Path) (flag : bool) (t' : list event),
     Some (IsPath (SOURCE_COLUMNS (example_config 2))) = Some (IsPath p) /\
     Some true = Some flag /\
     read_file_body p flag (example_files ["  0|id "] [])
     = (t', Return ["0|id"])).
Proof.
  split; [|split].
  - apply (proj1 (proj2 (proj2
             (wrapper_results read_file_body
                {| kw_path := Some (IsPath (SOURCE_COLUMNS (example_config 2)));
                   kw_strip_whitespace := Some true |}
                (example_files [] ["7"]))))
             (SOURCE_COLUMNS (example_config 2)) true
             [ReadFile (SOURCE_COLUMNS (example_config 2))]);
      reflexivity.
  - apply (proj1 (wrapper_results read_file_body
                    {| kw_path := Some (NoPath "data/source");
                       kw_strip_whitespace := None |}
                    (example_files [] ["7"]))).
    right. reflexivity.
  - eapply (proj2 (proj2 (proj2 (proj2 (proj2
              (wrapper_results read_file_body
                 {| kw_path := Some (IsPath (SOURCE_COLUMNS (example_config 2)));
                    kw_strip_whitespace := Some true |}
                 (example_files ["  0|id "] []))))))).
    reflexivity.
Defined.

(** X11. What [read_file] returns when opening and reading the file
    succeeds and gives the lines [raw]: [None] when there are no lines,
    whatever the flag is; otherwise, with stripping, the lines with the
    white space around each removed, so that no returned line begins or
    ends with white space and stripping again changes nothing, and without
    stripping the lines as they are; in both cases as many lines as were
    read. *)
Theorem read_file_lines_stripped (p : Path) (fs : files)
    (raw : list string) :
  fs p = Some raw ->
  (raw = [] -> forall flag, snd (read_file (Some p) flag fs) = Return None) /\
  (raw <> [] ->
   snd (read_file (Some p) true fs) = Return (Some (map strip raw)) /\
   snd (read_file (Some p) false fs) = Return (Some raw) /\
   Forall (fun line => stripped line = true) (map strip raw) /\
   map strip (map strip raw) = map strip raw /\
   List.length (map strip raw) = List.length raw).
Proof.
  intros Hfs. split.
  - intros -> flag.
    unfold read_file, log_read_file, read_file_body, readlines, bind, log, emit.
    rewrite Hfs. destruct flag; reflexivity.
  - intros Hne. split; [|split; [|split; [|split]]].
    + rewrite (read_file_lines p fs raw Hfs Hne). reflexivity.
    + unfold read_file, log_read_file, read_file_body, readlines, bind,
        log, emit.
      rewrite Hfs. destruct raw; [contradiction | reflexivity].
    + apply Forall_forall. intros line Hin.
      apply in_map_iff in Hin. destruct Hin as (r & <- & _).
      apply strip_stripped.
    + rewrite map_map. apply map_ext. intros r.
      apply stripped_strip_id, strip_stripped.
    + apply length_map.
Qed.

Lemma read_file_lines_stripped_witness :
  snd (read_file (Some (SOURCE_DATA (example_config 2))) true
         (example_files [] ["  2|bob  "; "1|alice"]))
    = Return (Some (map strip ["  2|bob  "; "1|alice"])) /\
  snd (read_file (Some (SOURCE_DATA (example_config 2))) false
         (example_files [] ["  2|bob  "; "1|alice"]))
    = Return (Some ["  2|bob  "; "1|alice"]) /\
  Forall (fun line => stripped line = true)
    (map strip ["  2|bob  "; "1|alice"]) /\
  map strip (map strip ["  2|bob  "; "1|alice"])
    = map strip ["  2|bob  "; "1|alice"] /\
  List.length (map strip ["  2|bob  "; "1|alice"]) = 2.
Proof.
  apply (proj2 (read_file_lines_stripped
                  (SOURCE_DATA (example_config 2))
                  (example_files [] ["  2|bob  "; "1|alice"])
                  ["  2|bob  "; "1|alice"] eq_refl)).
  discriminate.
Defined.

(** ** The runs of the entry point, classified *)

(** Every run of [main] is one of the seven of [run_of]. *)
Lemma main_run_of (cfg : config) (fs : files) : run_of cfg fs (main cfg fs).
Proof.
  destruct (fs (SOURCE_COLUMNS cfg)) as [[|c raw]|] eqn:Hcols.
  - rewrite (main_columns_empty cfg fs Hcols).
    apply run_columns_empty, Hcols.
  - pose proof (cons_not_nil c raw) as Hne.
    destruct (prep_cols (map strip (c :: raw))) as [names|e] eqn:Hprep.
    + destruct (fs (SOURCE_DATA cfg)) as [[|r rows]|] eqn:Hdata.
      * rewrite (main_data_empty cfg fs _ _ Hcols Hne Hprep Hdata).
        apply (run_data_empty cfg fs _ _ Hcols Hne Hprep Hdata).
      * pose proof (cons_not_nil r rows) as Hdne.
        rewrite (main_composed cfg fs _ _ _ Hcols Hne Hprep Hdata Hdne).
        cbn zeta.
        pose proof (composed_row_count (join "," names) (r :: rows)) as Hrc.
        destruct (Z.eq_dec (Z.of_nat (List.length (r :: rows)))
                    (EXPECTED_ROW_COUNT cfg)) as [Heq|Hneq].
        -- rewrite verify_and_load_match by (rewrite Hrc; exact Heq).
           apply (run_complete cfg fs _ _ _ Hcols Hne Hprep Hdata Hdne Heq).
        -- rewrite verify_and_load_mismatch by (rewrite Hrc; exact Hneq).
           apply (run_mismatch cfg fs _ _ _ Hcols Hne Hprep Hdata Hdne Hneq).
      * rewrite (main_data_missing cfg fs _ _ Hcols Hne Hprep Hdata).
        apply (run_data_missing cfg fs _ _ Hcols Hne Hprep Hdata).
    + rewrite (main_columns_raise cfg fs _ e Hcols Hne Hprep).
      apply (run_columns_raise cfg fs _ e Hcols Hne Hprep).
  - rewrite (main_columns_missing cfg fs Hcols).
    apply run_columns_missing, Hcols.
Qed.

(** ** [compose_csv_data] *)

(** X12. The composer touches no file and does not call the storage
    library. A composition it returns has at least two rows, as many as
    header and body have together, its row count is the number of its
    lines, and header and body were both there and not empty. *)
Theorem compose_csv_data_result (body header : option (list string))
    (fs : files) :
  files_read (fst (compose_csv_data body header fs)) = [] /\
  written (fst (compose_csv_data body header fs)) = [] /\
  loaded (fst (compose_csv_data body header fs)) = [] /\
  (forall (t : list event) (r : csv),
      compose_csv_data body header fs = (t, Return (Some r)) ->
      t = [] /\
      (2 <= row_count r)%Z /\
      row_count r = Z.of_nat (List.length (data r)) /\
      exists b h : list string,
        body = Some b /\ header = Some h /\ b <> [] /\ h <> [] /\
        data r = h ++ b /\
        row_count r = (Z.of_nat (List.length h) + Z.of_nat (List.length b))%Z).
Proof.
  assert (Hquiet : forall t o, compose_csv_data body header fs = (t, o) ->
                     files_read t = [] /\ written t = [] /\ loaded t = []).
  { unfold compose_csv_data. intros t o H.
    destruct (falsy body || falsy header); cbv in H;
      injection H as <- _; repeat split. }
  destruct (compose_csv_data body header fs) as [t0 o0] eqn:E.
  destruct (Hquiet t0 o0 eq_refl) as (Hr & Hw & Hl).
  split; [exact Hr|]. split; [exact Hw|]. split; [exact Hl|].
  intros t r H. injection H as <- ->.
  unfold compose_csv_data in E.
  destruct body as [[|b0 b]|], header as [[|h0 h]|];
    cbn [falsy orb list_of] in E; try discriminate.
  cbv [ret] in E. injection E as <- <-.
  cbn [row_count data].
  split; [reflexivity|].
  split; [rewrite length_app; simpl List.length; lia|].
  split; [reflexivity|].
  exists (b0 :: b), (h0 :: h).
  repeat split; try discriminate.
  rewrite <- Nat2Z.inj_add, <- length_app. reflexivity.
Qed.

Lemma compose_csv_data_result_witness :
  [] = @nil event /\
  (2 <= 3)%Z /\
  3%Z = Z.of_nat (List.length ["h"; "a"; "b"]) /\
  exists b h : list string,
    Some ["a"; "b"] = Some b /\ Some ["h"] = Some h /\ b <> [] /\ h <> [] /\
    ["h"; "a"; "b"] = h ++ b /\
    3%Z = (Z.of_nat (List.length h) + Z.of_nat (List.length b))%Z.
Proof.
  apply (proj2 (proj2 (proj2
           (compose_csv_data_result (Some ["a"; "b"]) (Some ["h"])
              (example_files [] []))))
           [] {| data := ["h"; "a"; "b"]; row_count := 3 |}).
  reflexivity.
Defined.

(** ** The entry point *)

Lemma artifact_written_effects (cfg : config) (lines : list string)
    (t : list event) :
  written (artifact_written cfg lines ++ t) = join newline lines :: written t /\
  loaded (artifact_written cfg lines ++ t) = loaded t /\
  files_read (artifact_written cfg lines ++ t)
  = SOURCE_COLUMNS cfg :: SOURCE_DATA cfg :: files_read t.
Proof. repeat split. Qed.

(** X13. A run writes at most one file and calls the storage library at
    most once, both under the destination name; the call of the storage
    library comes after the one write, and there is no call without it. *)
Theorem main_effect_order (cfg : config) (fs : files) :
  (written (fst (main cfg fs)) = [] \/
   exists content, written (fst (main cfg fs)) = [content]) /\
  (forall name content,
      In (WriteFile name content) (fst (main cfg fs)) ->
      name = DEST_DATA_FILENAME cfg) /\
  (loaded (fst (main cfg fs)) = [] \/
   exists (before after : list event) (content : string),
     fst (main cfg fs) = before ++ LoadCsv (DEST_DATA_FILENAME cfg) :: after /\
     In (WriteFile (DEST_DATA_FILENAME cfg) content) before /\
     written before = [content] /\ written after = [] /\
     loaded before = [] /\ loaded after = []).
Proof.
  destruct (main_run_of cfg fs)
    as [Hc|Hc|raw e Hc Hne Hp|raw names Hc Hne Hp Hd|raw names Hc Hne Hp Hd
        |raw names rows Hc Hne Hp Hd Hdne Hn|raw names rows Hc Hne Hp Hd Hdne Hn];
    cbn [fst].
  1-5: split; [left; reflexivity|];
       split; [|left; reflexivity];
       intros name content Hin; simpl in Hin;
       repeat (destruct Hin as [Hin|Hin]; [discriminate|]); contradiction.
  - split; [right; eexists; reflexivity|].
    split; [|left; reflexivity].
    intros name content Hin. simpl in Hin.
    repeat (destruct Hin as [Hin|Hin];
            [first [discriminate | injection Hin as <- _; reflexivity]|]).
    contradiction.
  - split; [right; eexists; reflexivity|].
    split.
    + intros name content Hin. simpl in Hin.
      repeat (destruct Hin as [Hin|Hin];
              [first [discriminate | injection Hin as <- _; reflexivity]|]).
      contradiction.
    + right.
      exists (artifact_written cfg
                (join "," names :: prep_data (map strip rows)) ++
              [Log INFO "Running row count verification...";
               Log INFO "Row count verification succeeeded...";
               Log INFO "Attempting to move CSV file to destination..."]),
             [Log INFO ("Successfully moved file " ++ DEST_DATA_FILENAME cfg
                        ++ "...");
              Log INFO "ETL process complete..."],
             (join newline (join "," names :: prep_data (map strip rows))).
      split; [reflexivity|].
      split; [|repeat split].
      simpl. do 10 right. left. reflexivity.
Qed.

Lemma main_effect_order_witness :
  "SOURCEDATA_1.csv" = DEST_DATA_FILENAME (example_config 1).
Proof.
  apply (proj1 (proj2 (main_effect_order (example_config 1)
                         (example_files ["0|id"] ["7"])))
           "SOURCEDATA_1.csv" (join newline ["id"; "7"])).
  simpl. do 10 right. left. reflexivity.
Defined.

(** X14. A run reads the column file first and the data file second, each
    at most once and nothing else; it reads the data file only after the
    columns were prepared without exception, and writes only after it read
    both files: in the events of a run that writes, both reads stand in
    front of the write and none behind it. *)
Theorem main_reads (cfg : config) (fs : files) :
  (files_read (fst (main cfg fs)) = [] \/
   files_read (fst (main cfg fs)) = [SOURCE_COLUMNS cfg] \/
   files_read (fst (main cfg fs)) = [SOURCE_COLUMNS cfg; SOURCE_DATA cfg]) /\
  (files_read (fst (main cfg fs)) = [SOURCE_COLUMNS cfg; SOURCE_DATA cfg] ->
   exists raw names,
     fs (SOURCE_COLUMNS cfg) = Some raw /\ raw <> [] /\
     prep_cols (map strip raw) = Ok names) /\
  (written (fst (main cfg fs)) <> [] ->
   files_read (fst (main cfg fs)) = [SOURCE_COLUMNS cfg; SOURCE_DATA cfg]) /\
  (written (fst (main cfg fs)) <> [] ->
   exists (before after : list event) (content : string),
     fst (main cfg fs)
     = before ++ WriteFile (DEST_DATA_FILENAME cfg) content :: after /\
     files_read before = [SOURCE_COLUMNS cfg; SOURCE_DATA cfg] /\
     written before = [] /\
     files_read after = []).
Proof.
  assert (Hreads :
      (files_read (fst (main cfg fs)) = [] \/
       files_read (fst (main cfg fs)) = [SOURCE_COLUMNS cfg] \/
       files_read (fst (main cfg fs)) = [SOURCE_COLUMNS cfg; SOURCE_DATA cfg]) /\
      (files_read (fst (main cfg fs)) = [SOURCE_COLUMNS cfg; SOURCE_DATA cfg] ->
       exists raw names,
         fs (SOURCE_COLUMNS cfg) = Some raw /\ raw <> [] /\
         prep_cols (map strip raw) = Ok names) /\
      (written (fst (main cfg fs)) <> [] ->
       files_read (fst (main cfg fs)) = [SOURCE_COLUMNS cfg; SOURCE_DATA cfg])).
  {
      destruct (main_run_of cfg fs)
        as [Hc|Hc|raw e Hc Hne Hp|raw names Hc Hne Hp Hd|raw names Hc Hne Hp Hd
            |raw names rows Hc Hne Hp Hd Hdne Hn|raw names rows Hc Hne Hp Hd Hdne Hn];
        cbn [fst].
      - split; [left; reflexivity|].
        split; [discriminate | intros H; contradiction H; reflexivity].
      - split; [right; left; reflexivity|].
        split; [discriminate | intros H; contradiction H; reflexivity].
      - split; [right; left; reflexivity|].
        split; [discriminate | intros H; contradiction H; reflexivity].
      - split; [right; left; reflexivity|].
        split; [discriminate | intros H; contradiction H; reflexivity].
      - split; [right; right; reflexivity|].
        split; [|intros H; contradiction H; reflexivity].
        intros _. exists raw, names. repeat split; assumption.
      - split; [right; right; reflexivity|].
        split; [|reflexivity].
        intros _. exists raw, names. repeat split; assumption.
      - split; [right; right; reflexivity|].
        split; [|reflexivity].
        intros _. exists raw, names. repeat split; assumption.
  }
  destruct Hreads as (H1 & H2 & H3).
  split; [exact H1|]. split; [exact H2|]. split; [exact H3|].
  destruct (main_run_of cfg fs)
    as [Hc|Hc|raw e Hc Hne Hp|raw names Hc Hne Hp Hd|raw names Hc Hne Hp Hd
        |raw names rows Hc Hne Hp Hd Hdne Hn|raw names rows Hc Hne Hp Hd Hdne Hn];
    cbn [fst]; try (intros H; contradiction H; reflexivity); intros _.
  - exists (columns_read cfg ++
            [Log INFO ("Attempting to read file "
                       ++ path_name (SOURCE_DATA cfg));
             ReadFile (SOURCE_DATA cfg);
             Log INFO ("Successfully read file "
                       ++ path_name (SOURCE_DATA cfg));
             Log INFO "Prepping source data...";
             Log INFO "Composing CSV file...";
             Log INFO "Writing CSV data to file..."]),
           [Log INFO "Running row count verification...";
            Log CRITICAL
              "Row counts between source data and CSV file not matching!"],
           (join newline (join "," names :: prep_data (map strip rows))).
    repeat split.
  - exists (columns_read cfg ++
            [Log INFO ("Attempting to read file "
                       ++ path_name (SOURCE_DATA cfg));
             ReadFile (SOURCE_DATA cfg);
             Log INFO ("Successfully read file "
                       ++ path_name (SOURCE_DATA cfg));
             Log INFO "Prepping source data...";
             Log INFO "Composing CSV file...";
             Log INFO "Writing CSV data to file..."]),
           [Log INFO "Running row count verification...";
            Log INFO "Row count verification succeeeded...";
            Log INFO "Attempting to move CSV file to destination...";
            LoadCsv (DEST_DATA_FILENAME cfg);
            Log INFO ("Successfully moved file " ++ DEST_DATA_FILENAME cfg
                      ++ "...");
            Log INFO "ETL process complete..."],
           (join newline (join "," names :: prep_data (map strip rows))).
    repeat split.
Qed.

Lemma main_reads_witness :
  files_read (fst (main (example_config 2)
                     (example_files ["1|name"; "0|id"] ["2|bob"])))
  = [SOURCE_COLUMNS (example_config 2); SOURCE_DATA (example_config 2)].
Proof.
  apply (proj1 (proj2 (proj2 (main_reads (example_config 2)
                         (example_files ["1|name"; "0|id"] ["2|bob"]))))).
  discriminate.
Defined.

(** X15. A run completes only if both files were read, the column file
    has lines and every one, stripped, has a delimiter behind an integer
    literal, and the data file has exactly the expected number of lines,
    which is not zero; a run that completes has written one file and
    called the storage library once, with the destination name. *)
Theorem main_completes_only_if (cfg : config) (fs : files) :
  snd (main cfg fs) = Return tt ->
  (exists raw rows : list string,
      fs (SOURCE_COLUMNS cfg) = Some raw /\ raw <> [] /\
      Forall (fun l => accepted_column l = true) (map strip raw) /\
      fs (SOURCE_DATA cfg) = Some rows /\ rows <> [] /\
      Z.of_nat (List.length rows) = EXPECTED_ROW_COUNT cfg /\
      written (fst (main cfg fs))
      = [join newline (join "," (map column_name
                                   (isort ordinal (map strip raw)))
                       :: prep_data (map strip rows))]) /\
  loaded (fst (main cfg fs)) = [DEST_DATA_FILENAME cfg] /\
  files_read (fst (main cfg fs)) = [SOURCE_COLUMNS cfg; SOURCE_DATA cfg].
Proof.
  destruct (main_run_of cfg fs)
    as [Hc|Hc|raw e Hc Hne Hp|raw names Hc Hne Hp Hd|raw names Hc Hne Hp Hd
        |raw names rows Hc Hne Hp Hd Hdne Hn|raw names rows Hc Hne Hp Hd Hdne Hn];
    cbn [fst snd]; try discriminate.
  intros _.
  pose proof (prep_cols_ok_inv _ names Hp) as Hacc.
  split; [|split; reflexivity].
  exists raw, rows.
  repeat split; try assumption.
  rewrite (prep_cols_accepted _ Hacc) in Hp. injection Hp as <-.
  reflexivity.
Qed.

Lemma main_completes_only_if_witness :
  (exists raw rows : list string,
      example_files [" 0|id"] ["7 "] (SOURCE_COLUMNS (example_config 1))
        = Some raw /\ raw <> [] /\
      Forall (fun l => accepted_column l = true) (map strip raw) /\
      example_files [" 0|id"] ["7 "] (SOURCE_DATA (example_config 1))
        = Some rows /\ rows <> [] /\
      Z.of_nat (List.length rows) = EXPECTED_ROW_COUNT (example_config 1) /\
      written (fst (main (example_config 1)
                      (example_files [" 0|id"] ["7 "])))
      = [join newline (join "," (map column_name
                                   (isort ordinal (map strip raw)))
                       :: prep_data (map strip rows))]) /\
  loaded (fst (main (example_config 1) (example_files [" 0|id"] ["7 "])))
    = [DEST_DATA_FILENAME (example_config 1)] /\
  files_read (fst (main (example_config 1) (example_files [" 0|id"] ["7 "])))
    = [SOURCE_COLUMNS (example_config 1); SOURCE_DATA (example_config 1)].
Proof.
  apply (main_completes_only_if (example_config 1)
           (example_files [" 0|id"] ["7 "])).
  reflexivity.
Defined.

(** X16. With an expected count of zero or less no run completes and the
    storage library is never called: a data file without lines ends the
    run before the verification. *)
Theorem main_nonpositive_expected (cfg : config) (fs : files) :
  (EXPECTED_ROW_COUNT cfg <= 0)%Z ->
  snd (main cfg fs) <> Return tt /\ loaded (fst (main cfg fs)) = [].
Proof.
  intros Hexp.
  destruct (main_run_of cfg fs)
    as [Hc|Hc|raw e Hc Hne Hp|raw names Hc Hne Hp Hd|raw names Hc Hne Hp Hd
        |raw names rows Hc Hne Hp Hd Hdne Hn|raw names rows Hc Hne Hp Hd Hdne Hn];
    cbn [fst snd]; try (split; [discriminate | reflexivity]).
  exfalso. destruct rows as [|r rows']; [contradiction|].
  simpl List.length in Hn. lia.
Qed.

Lemma main_nonpositive_expected_witness :
  snd (main (example_config 0) (example_files ["0|id"] [])) <> Return tt /\
  loaded (fst (main (example_config 0) (example_files ["0|id"] []))) = [].
Proof.
  apply (main_nonpositive_expected (example_config 0)
           (example_files ["0|id"] [])).
  simpl. lia.
Defined.

(** X17. A file that does not exist ends the run with the
    [FileNotFoundError] of [open], which the decorator of [read_file] does
    not catch; nothing is written and the storage library is not called. *)
Theorem main_missing_file (cfg : config) (fs : files) :
  (fs (SOURCE_COLUMNS cfg) = None ->
   snd (main cfg fs) = Uncaught FileNotFoundError /\
   files_read (fst (main cfg fs)) = [] /\
   written (fst (main cfg fs)) = [] /\ loaded (fst (main cfg fs)) = []) /\
  (forall raw names : list string,
      fs (SOURCE_COLUMNS cfg) = Some raw -> raw <> [] ->
      prep_cols (map strip raw) = Ok names ->
      fs (SOURCE_DATA cfg) = None ->
      snd (main cfg fs) = Uncaught FileNotFoundError /\
      files_read (fst (main cfg fs)) = [SOURCE_COLUMNS cfg] /\
      written (fst (main cfg fs)) = [] /\ loaded (fst (main cfg fs)) = []).
Proof.
  split.
  - intros Hc. rewrite (main_columns_missing cfg fs Hc). repeat split.
  - intros raw names Hc Hne Hp Hd.
    rewrite (main_data_missing cfg fs raw names Hc Hne Hp Hd). repeat split.
Qed.

Lemma main_missing_file_witness :
  snd (main (other_config 2) (fun _ => None)) = Uncaught FileNotFoundError /\
  snd (main (other_config 2)
         (fun p => if String.eqb (path_name p) "in/columns"
                   then Some ["0|id"] else None))
    = Uncaught FileNotFoundError.
Proof.
  split.
  - apply (proj1 (main_missing_file (other_config 2) (fun _ => None))).
    reflexivity.
  - apply (proj2 (main_missing_file (other_config 2)
                    (fun p => if String.eqb (path_name p) "in/columns"
                              then Some ["0|id"] else None))
             ["0|id"] ["id"]); try reflexivity; discriminate.
Defined.

Lemma verify_and_load_written (cfg : config) (row_count : Z) (fs : files) :
  written (fst (verify_and_load cfg row_count fs)) = [].
Proof.
  destruct (Z.eq_dec (row_count - 1) (EXPECTED_ROW_COUNT cfg)) as [H|H].
  - rewrite (verify_and_load_match cfg row_count fs H). reflexivity.
  - rewrite (verify_and_load_mismatch cfg row_count fs H). reflexivity.
Qed.

(** The names [prep_cols] returns contain no character that the lines do
    not contain. *)
Lemma prep_cols_names_without (c : ascii) (cols names : list string) :
  prep_cols cols = Ok names ->
  Forall (fun l => count_char c l = 0) cols ->
  Forall (fun n => count_char c n = 0) names.
Proof.
  intros H Hc.
  pose proof (prep_cols_ok_inv cols names H) as Hacc.
  rewrite (prep_cols_accepted cols Hacc) in H. injection H as <-.
  apply Forall_forall. intros n Hin.
  apply in_map_iff in Hin. destruct Hin as (l & <- & Hl).
  apply (Permutation_in _ (isort_perm ordinal cols)) in Hl.
  rewrite Forall_forall in Hacc, Hc.
  destruct (accepted_column_inv l (Hacc l Hl))
    as (o & n & rest & z & E & _ & _ & _ & _ & Hn).
  pose proof (split_pieces_without pipe c l (Hc l Hl)) as Hp.
  rewrite E in Hp. rewrite Hn.
  inversion Hp as [|? ? _ Hp']; subst.
  inversion Hp' as [|? ? Hn0 _]; subst. exact Hn0.
Qed.

(** X18. When no stripped line of the two files contains a line feed, the
    file a run writes splits at the line feeds into the header, which is
    the names joined by commas, followed by the transformed rows: one line
    more than the data file has, the row count of the composition. *)
Theorem artifact_lines_round_trip (cfg : config) (fs : files)
    (raw names rows : list string) :
  fs (SOURCE_COLUMNS cfg) = Some raw -> raw <> [] ->
  prep_cols (map strip raw) = Ok names ->
  fs (SOURCE_DATA cfg) = Some rows -> rows <> [] ->
  Forall (fun l => count_char newline_char l = 0) (map strip raw) ->
  Forall (fun l => count_char newline_char l = 0) (map strip rows) ->
  exists content : string,
    written (fst (main cfg fs)) = [content] /\
    split newline_char content
    = join "," names :: prep_data (map strip rows) /\
    List.length (split newline_char content) = S (List.length rows).
Proof.
  intros Hc Hne Hp Hd Hdne Hraw Hrows.
  exists (join newline (join "," names :: prep_data (map strip rows))).
  assert (Hsplit :
    split newline_char
      (join newline (join "," names :: prep_data (map strip rows)))
    = join "," names :: prep_data (map strip rows)).
  { apply (split_join newline_char); [discriminate|].
    constructor.
    - apply count_char_join_zero; [reflexivity|].
      apply (prep_cols_names_without _ _ _ Hp Hraw).
    - unfold prep_data. apply Forall_forall. intros out Hin.
      apply in_map_iff in Hin. destruct Hin as (row & <- & Hrow).
      rewrite prep_data_row.
      apply replace_char_keeps; [discriminate|].
      rewrite Forall_forall in Hrows. apply Hrows, Hrow. }
  split; [|split].
  - rewrite (main_composed cfg fs _ _ _ Hc Hne Hp Hd Hdne).
    cbn zeta. cbn [fst].
    rewrite !written_app, verify_and_load_written. reflexivity.
  - exact Hsplit.
  - rewrite Hsplit. simpl List.length.
    unfold prep_data. rewrite !length_map. reflexivity.
Qed.

Lemma artifact_lines_round_trip_witness :
  exists content : string,
    written (fst (main (example_config 5)
                    (example_files ["1|name"; "0|id"] ["2|bob"; "1|alice"])))
      = [content] /\
    split newline_char content
    = join "," ["id"; "name"]
        :: prep_data (map strip ["2|bob"; "1|alice"]) /\
    List.length (split newline_char content) = 3.
Proof.
  apply (artifact_lines_round_trip (example_config 5)
           (example_files ["1|name"; "0|id"] ["2|bob"; "1|alice"])
           ["1|name"; "0|id"] ["id"; "name"] ["2|bob"; "1|alice"]);
    try reflexivity; try discriminate; repeat constructor.
Defined.

(** X19. With the constants the module sets, whatever the directory of the
    program and the UUID in the destination name: the storage library is
    called only for a data file of exactly 1000 lines. *)
Theorem source_constants_gate (root uuid : string) (fs : files) :
  loaded (fst (main (source_config root uuid) fs)) <> [] ->
  exists rows : list string,
    fs (SOURCE_DATA (source_config root uuid)) = Some rows /\
    List.length rows = 1000 /\
    loaded (fst (main (source_config root uuid) fs))
    = [("SOURCEDATA_" ++ uuid ++ ".csv")%string].
Proof.
  intros H.
  destruct (main_loaded_inv _ fs H) as (rows & Hrows & Hlen & Hret).
  exists rows. split; [exact Hrows|]. split.
  - change (EXPECTED_ROW_COUNT (source_config root uuid)) with 1000%Z in Hlen.
    lia.
  - destruct (main_run_of (source_config root uuid) fs)
      as [Hc|Hc|raw e Hc Hne Hp|raw names Hc Hne Hp Hd|raw names Hc Hne Hp Hd
          |raw names rows' Hc Hne Hp Hd Hdne Hn
          |raw names rows' Hc Hne Hp Hd Hdne Hn];
      cbn [fst snd] in *; try discriminate.
    reflexivity.
Qed.

Lemma source_constants_gate_witness :
  exists rows : list string,
    (fun p : Path =>
       if String.eqb (path_name p) "/app/data/source/SOURCECOLUMNS.txt"
       then Some ["1|name"; "0|id"]
       else Some (List.repeat "7|x" 1000))
      (SOURCE_DATA (source_config "/app" "u1")) = Some rows /\
    List.length rows = 1000 /\
    loaded (fst (main (source_config "/app" "u1")
                   (fun p : Path =>
                      if String.eqb (path_name p)
                           "/app/data/source/SOURCECOLUMNS.txt"
                      then Some ["1|name"; "0|id"]
                      else Some (List.repeat "7|x" 1000))))
    = [("SOURCEDATA_" ++ "u1" ++ ".csv")%string].
Proof.
  apply (source_constants_gate "/app" "u1"
           (fun p : Path =>
              if String.eqb (path_name p) "/app/data/source/SOURCECOLUMNS.txt"
              then Some ["1|name"; "0|id"]
              else Some (List.repeat "7|x" 1000))).
  vm_compute. discriminate.
Defined.

(** X20. When no column line contains a comma, the header line built from
    the prepared names splits at the commas into exactly these names: the
    header has one field per line of the column file. *)
Theorem header_fields (cols names : list string) :
  prep_cols cols = Ok names -> cols <> [] ->
  Forall (fun l => count_char comma l = 0) cols ->
  split comma (join "," names) = names /\
  List.length (split comma (join "," names)) = List.length cols.
Proof.
  intros H Hne Hc.
  pose proof (prep_cols_ok_inv cols names H) as Hacc.
  assert (Hlen : List.length names = List.length cols).
  { rewrite (prep_cols_accepted cols Hacc) in H. injection H as <-.
    rewrite length_map. apply Permutation_length, isort_perm. }
  assert (Hsplit : split comma (join "," names) = names).
  { apply (split_join comma).
    - intros ->. destruct cols; [contradiction | discriminate].
    - apply (prep_cols_names_without comma cols names H Hc). }
  split; [exact Hsplit|].
  rewrite Hsplit. exact Hlen.
Qed.

Lemma header_fields_witness :
  split comma (join "," ["id"; "first name"]) = ["id"; "first name"] /\
  List.length (split comma (join "," ["id"; "first name"])) = 2.
Proof.
  apply (header_fields ["1|first name"; "0|id"] ["id"; "first name"]).
  - reflexivity.
  - discriminate.
  - repeat constructor.
Defined.
